(** * flair.embeddings.base: embedding abstraction and scalar mixture

    A shallow embedding of [flair/embeddings/base.py]: the abstract
    [Embeddings] class (constructor defaults, the [embed] caching policy,
    the constructor-introspection helper) and the [ScalarMix] operator.

    Python objects that are mutated in place (data points, the module
    instance, the logging channel) live in an explicit state that is
    threaded through the calls; operations that can raise return an
    outcome that is either a value or an exception. *)

From Stdlib Require Import ZArith Reals Lra Lia String DecimalString.
From Stdlib Require SpecFloat.
From stdpp Require Import gmap strings list.

Local Open Scope Z_scope.
Local Open Scope string_scope.
Local Open Scope list_scope.
Local Open Scope stdpp_scope.

(** ** Exceptions and the two monads of the development *)

Inductive exn : Type :=
| RuntimeError (msg : string)
| KeyError (key : string)
| IndexError (msg : string)
| AttributeError (attr : string).

(** Pure code that can raise. *)
Inductive result (A : Type) : Type :=
| Ok (a : A)
| Err (e : exn).
Arguments Ok {A} a.
Arguments Err {A} e.

#[global] Instance result_ret : MRet result := fun _ a => Ok a.
#[global] Instance result_bind : MBind result := fun _ _ f m =>
  match m with
  | Ok a => f a
  | Err e => Err e
  end.
#[global] Instance result_fmap : FMap result := fun _ _ f m =>
  match m with
  | Ok a => Ok (f a)
  | Err e => Err e
  end.

(** Code that reads and writes a state [S] and can raise; the state at the
    point of the exception is kept, as Python keeps the mutations done
    before a raise. *)
Inductive outcome (S A : Type) : Type :=
| Returns (a : A) (s : S)
| Raises (e : exn) (s : S).
Arguments Returns {S A} a s.
Arguments Raises {S A} e s.

Definition Py (S A : Type) : Type := S -> outcome S A.

#[global] Instance Py_ret {S} : MRet (Py S) := fun _ a s => Returns a s.
#[global] Instance Py_bind {S} : MBind (Py S) := fun _ _ f m s =>
  match m s with
  | Returns a s' => f a s'
  | Raises e s' => Raises e s'
  end.

Definition gets {S A} (f : S -> A) : Py S A := fun s => Returns (f s) s.
Definition modify {S} (f : S -> S) : Py S unit := fun s => Returns tt (f s).
Definition lift {S A} (r : result A) : Py S A := fun s =>
  match r with
  | Ok a => Returns a s
  | Err e => Raises e s
  end.

Definition final_state {S A} (o : outcome S A) : S :=
  match o with
  | Returns _ s => s
  | Raises _ s => s
  end.

(** ** Numbers held by tensors

    [torch.float] arithmetic enters only through these operations; the
    structural results below hold for any interpretation of them. *)

Class Scalar (F : Type) : Type := {
  of_Z : Z -> F;
  fadd : F -> F -> F;
  fsub : F -> F -> F;
  fmul : F -> F -> F;
  fdiv : F -> F -> F;
  fexp : F -> F;
  fmax : F -> F -> F
}.

(** ** Tensors: a shape and the entries in row-major order *)

Record Tensor (F : Type) : Type := mkTensor {
  shape : list nat;
  data : list F
}.
Arguments mkTensor {F} shape data.
Arguments shape {F} t.
Arguments data {F} t.

Definition numel (s : list nat) : nat := foldr Nat.mul 1%nat s.

(** [chunks n sz d]: the [n] consecutive blocks of [sz] entries of [d]. *)
Definition chunks {A} (n sz : nat) (d : list A) : list (list A) :=
  (fun i => take sz (drop (i * sz) d)) <$> seq 0 n.

Section Torch.
Context {F : Type} {FS : Scalar F}.

Definition well_shaped (t : Tensor F) : Prop :=
  length (data t) = numel (shape t).

(** *** Broadcasting of elementwise binary operations *)

(** Shapes are aligned at their last dimension; the argument lists are
    the reversed shapes. *)
Fixpoint broadcast_rev (r1 r2 : list nat) : option (list nat) :=
  match r1, r2 with
  | [], r => Some r
  | r, [] => Some r
  | a :: r1', b :: r2' =>
      if (a =? b)%nat then (a ::.) <$> broadcast_rev r1' r2'
      else if (a =? 1)%nat then (b ::.) <$> broadcast_rev r1' r2'
      else if (b =? 1)%nat then (a ::.) <$> broadcast_rev r1' r2'
      else None
  end.

Definition broadcast_shapes (s1 s2 : list nat) : option (list nat) :=
  reverse <$> broadcast_rev (reverse s1) (reverse s2).

Definition pad_shape (rank : nat) (s : list nat) : list nat :=
  replicate (rank - length s) 1%nat ++ s.

(** Entries of a tensor of shape [from] repeated to fill shape [to]
    (same rank, each dimension of [from] equal to that of [to] or 1). *)
Fixpoint expand (from to : list nat) (d : list F) : list F :=
  match from, to with
  | a :: from', b :: to' =>
      let rows := expand from' to' <$> chunks a (numel from') d in
      if (a =? b)%nat then concat rows
      else concat (replicate b (concat rows))
  | _, _ => d
  end.

Definition broadcast_op (f : F -> F -> F) (x y : Tensor F)
  : result (Tensor F) :=
  match broadcast_shapes (shape x) (shape y) with
  | None =>
      Err (RuntimeError
             "The size of tensor a must match the size of tensor b")
  | Some s =>
      let r := length s in
      Ok (mkTensor s
            (zip_with f
               (expand (pad_shape r (shape x)) s (data x))
               (expand (pad_shape r (shape y)) s (data y))))
  end.

Definition tensor_add : Tensor F -> Tensor F -> result (Tensor F) :=
  broadcast_op fadd.
Definition tensor_mul : Tensor F -> Tensor F -> result (Tensor F) :=
  broadcast_op fmul.

(** A Python number met by a tensor operation acts as a tensor with no
    dimension. *)
Definition wrapped_number (z : Z) : Tensor F := mkTensor [] [of_Z z].

(** *** [torch.cat] along dimension 0 *)

Definition same_tail (tl : list nat) (t : Tensor F) : bool :=
  match shape t with
  | [] => false
  | _ :: tl' => bool_decide (tl = tl')
  end.

Definition cat (ts : list (Tensor F)) : result (Tensor F) :=
  match ts with
  | [] =>
      Err (RuntimeError "torch.cat(): expected a non-empty list of Tensors")
  | t :: _ =>
      match shape t with
      | [] =>
          Err (RuntimeError
                 "zero-dimensional tensor cannot be concatenated")
      | _ :: tl =>
          if forallb (same_tail tl) ts
          then Ok (mkTensor
                     (sum_list ((fun u => hd 0%nat (shape u)) <$> ts) :: tl)
                     (concat (data <$> ts)))
          else Err (RuntimeError
                      "Sizes of tensors must match except in dimension 0")
      end
  end.

(** *** [torch.nn.functional.softmax] along dimension 0

    The exponentials are shifted by the maximum of the slice, which is
    how the library computes them. *)

Definition softmax_list (ws : list F) : list F :=
  match ws with
  | [] => []
  | w :: ws' =>
      let m := foldl fmax w ws' in
      let es := (fun x => fexp (fsub x m)) <$> ws in
      let total := foldl fadd (of_Z 0) es in
      (fun e => fdiv e total) <$> es
  end.

Definition dim0 (s : list nat) : nat * nat :=
  match s with
  | [] => (1%nat, 1%nat)
  | n :: rest => (n, numel rest)
  end.

(** The entries at positions [j, m + j, 2 m + j, ...]: one slice along
    dimension 0 of a tensor whose rows have [m] entries. *)
Definition slice0 (n m j : nat) (d : list F) : list F :=
  omap (fun i => d !! (i * m + j)%nat) (seq 0 n).

Definition softmax0 (t : Tensor F) : Tensor F :=
  let '(n, m) := dim0 (shape t) in
  mkTensor (shape t)
    (imap (fun p x =>
             let j := (p mod m)%nat in
             default x (softmax_list (slice0 n m j (data t)) !! (p / m)%nat))
          (data t)).

(** *** [torch.split] into blocks of one row along dimension 0 *)

Definition split1 (t : Tensor F) : result (list (Tensor F)) :=
  match shape t with
  | [] =>
      Err (RuntimeError
             "split expects at least a 1-dimensional tensor")
  | n :: rest =>
      Ok (mkTensor (1%nat :: rest) <$> chunks n (numel rest) (data t))
  end.
End Torch.

(** ** ScalarMix *)

Inductive log_level : Type := DEBUG | INFO | WARNING | ERROR | CRITICAL.

Record LogRecord : Type := mkLogRecord {
  level : log_level;
  message : string
}.

(** [str.format] of an integer. *)
Definition format_int (z : Z) : string :=
  NilZero.string_of_int (Z.to_int z).

(** A [torch.nn.Parameter]: the tensor it wraps and its [requires_grad]
    flag. *)
Record TorchParameter (F : Type) : Type := mkParameter {
  value : Tensor F;
  requires_grad : bool
}.
Arguments mkParameter {F} value requires_grad.
Arguments value {F} _.
Arguments requires_grad {F} _.

Record ScalarMix (F : Type) : Type := mkScalarMix {
  mixture_size : Z;
  scalar_parameters : list (TorchParameter F);
  gamma : TorchParameter F
}.
Arguments mkScalarMix {F} mixture_size scalar_parameters gamma.
Arguments mixture_size {F} _.
Arguments scalar_parameters {F} _.
Arguments gamma {F} _.

(** What a call of [forward] can read and write: the module instance and
    the records sent to the ["flair"] logger. *)
Record Env (F : Type) : Type := mkEnv {
  self : ScalarMix F;
  log : list LogRecord
}.
Arguments mkEnv {F} self log.
Arguments self {F} _.
Arguments log {F} _.

(** The result of Python's [sum] is the integer start value when there is
    nothing to add, and a tensor otherwise. *)
Inductive pynum (F : Type) : Type :=
| PInt (z : Z)
| PTensor (t : Tensor F).
Arguments PInt {F} z.
Arguments PTensor {F} t.

Section ScalarMix.
Context {F : Type} {FS : Scalar F}.

(** [a + b]; an integer on the left of a tensor is handled by the
    tensor's reflected addition, which adds the number to the tensor. *)
Definition py_add (a b : pynum F) : result (pynum F) :=
  match a, b with
  | PInt x, PInt y => Ok (PInt (x + y))
  | PInt x, PTensor t => PTensor <$> tensor_add t (wrapped_number x)
  | PTensor t, PInt y => PTensor <$> tensor_add t (wrapped_number y)
  | PTensor t, PTensor u => PTensor <$> tensor_add t u
  end.

(** [tensor * b]. *)
Definition py_mul (t : Tensor F) (b : pynum F) : result (Tensor F) :=
  match b with
  | PInt y => tensor_mul t (wrapped_number y)
  | PTensor u => tensor_mul t u
  end.

(** The builtin [sum]: a left fold of [+] from the integer 0. *)
Fixpoint sum_from (acc : pynum F) (items : list (Tensor F))
  : result (pynum F) :=
  match items with
  | [] => Ok acc
  | x :: rest => acc' ← py_add acc (PTensor x); sum_from acc' rest
  end.

Definition py_sum (items : list (Tensor F)) : result (pynum F) :=
  sum_from (PInt 0) items.

Definition index {A} (l : list A) (i : nat) : result A :=
  match l !! i with
  | Some a => Ok a
  | None => Err (IndexError "list index out of range")
  end.

(** [ScalarMix.__init__]. [range] and list repetition treat a negative
    [mixture_size] as zero. *)
Definition ScalarMix_init (mixture_size : Z) (trainable : bool)
  : result (ScalarMix F) :=
  let initial_scalar_parameters :=
    replicate (Z.to_nat mixture_size) (of_Z 0) in
  params ← mapM (fun i =>
                   x ← index initial_scalar_parameters i;
                   mret (mkParameter (mkTensor [1%nat] [x]) trainable))
                (seq 0 (Z.to_nat mixture_size));
  mret (mkScalarMix mixture_size params
          (mkParameter (mkTensor [1%nat] [of_Z 1]) trainable)).

Definition mismatch_message (passed : nat) (expected : Z) : string :=
  format_int (Z.of_nat passed)
  +:+ " tensors were passed, but the module was initialized to mix "
  +:+ format_int expected +:+ " tensors.".

Definition log_error (msg : string) : Py (Env F) unit :=
  modify (fun e => mkEnv (self e) (log e ++ [mkLogRecord ERROR msg])).

(** [ScalarMix.forward]. *)
Definition forward (tensors : list (Tensor F)) : Py (Env F) (Tensor F) :=
  this ← gets self;
  (if bool_decide (Z.of_nat (length tensors) ≠ mixture_size this)
   then log_error (mismatch_message (length tensors) (mixture_size this))
   else mret tt);;
  joined ← lift (cat (value <$> scalar_parameters this));
  let normed_weights := softmax0 joined in
  normed_weights ← lift (split1 normed_weights);
  pieces ← lift (mapM (fun '(weight, tensor) => tensor_mul weight tensor)
                      (zip normed_weights tensors));
  g ← gets (fun e => gamma (self e));
  total ← lift (py_sum pieces);
  lift (py_mul (value g) total).
End ScalarMix.

(** ** Reading a module and the mixture as the documentation states it *)

Section ScalarMixSpec.
Context {F : Type} {FS : Scalar F}.

(** The tensor built by [torch.tensor([x])]. *)
Definition unit_vector (x : F) : Tensor F := mkTensor [1%nat] [x].

(** [tensor.item()] of a one-entry tensor. *)
Definition item (t : Tensor F) : F := default (of_Z 0) (head (data t)).

Definition weights (m : ScalarMix F) : list F :=
  (fun p => item (value p)) <$> scalar_parameters m.

Definition scale (m : ScalarMix F) : F := item (value (gamma m)).

(** The state of a module between its construction and any later call:
    one one-entry parameter per mixed tensor, and a one-entry [gamma]. *)
Record module_ok (m : ScalarMix F) : Prop := {
  ok_count : length (scalar_parameters m) = Z.to_nat (mixture_size m);
  ok_params :
    Forall (fun p => value p = unit_vector (item (value p)))
           (scalar_parameters m);
  ok_gamma : value (gamma m) = unit_vector (scale m)
}.

(** The module that [ScalarMix(n, trainable)] builds. *)
Definition fresh (n : Z) (trainable : bool) : ScalarMix F :=
  mkScalarMix n
    (replicate (Z.to_nat n) (mkParameter (unit_vector (of_Z 0)) trainable))
    (mkParameter (unit_vector (of_Z 1)) trainable).

(** The computation of [forward] after the parameters are read: scale
    each tensor by its weight, add up, multiply by [g]. *)
Definition mix (s : list F) (g : F) (ts : list (Tensor F))
  : result (Tensor F) :=
  pieces ← mapM (fun '(w, t) => tensor_mul (unit_vector w) t) (zip s ts);
  total ← py_sum pieces;
  py_mul (unit_vector g) total.

(** The term [s_k * tensor_k], named by its index. *)
Definition weighted_term (s : list F) (ts : list (Tensor F)) (k : nat)
  : result (Tensor F) :=
  w ← index s k;
  t ← index ts k;
  tensor_mul (unit_vector w) t.

(** [g * sum(s_k * tensor_k)] for [k] below [n]. *)
Definition scalar_mixture (s : list F) (g : F) (ts : list (Tensor F))
    (n : nat) : result (Tensor F) :=
  terms ← mapM (weighted_term s ts) (seq 0 n);
  total ← py_sum terms;
  py_mul (unit_vector g) total.

(** Entry by entry: the running sum of Python's [sum], which starts
    from the integer 0. *)
Fixpoint add_all (acc : list F) (pieces : list (list F)) : list F :=
  match pieces with
  | [] => acc
  | p :: rest => add_all (zip_with fadd acc p) rest
  end.

Definition mixture_data (s : list F) (g : F) (ts : list (Tensor F))
  : list F :=
  match zip_with (fun w t => fmul w <$> data t) s ts with
  | [] => [fmul g (of_Z 0)]
  | p :: rest =>
      fmul g <$> add_all ((fun x => fadd x (of_Z 0)) <$> p) rest
  end.

Definition mixture_shape (sh : list nat) (s : list F)
    (ts : list (Tensor F)) : list nat :=
  match zip s ts with
  | [] => [1%nat]
  | _ :: _ => sh
  end.

(** Tensors of shape [sh] whose data fill that shape. *)
Definition shaped (sh : list nat) (t : Tensor F) : Prop :=
  shape t = sh /\ well_shaped t.

Definition mismatch_record (passed : nat) (expected : Z) : list LogRecord :=
  if bool_decide (Z.of_nat passed ≠ expected)
  then [mkLogRecord ERROR (mismatch_message passed expected)]
  else [].
End ScalarMixSpec.

(** ** Real numbers as the numbers of tensors

    The reading of [torch.float] used where a statement needs the laws of
    arithmetic: rounding is left out. *)

#[global] Instance R_scalar : Scalar R := {
  of_Z := IZR;
  fadd := Rplus;
  fsub := Rminus;
  fmul := Rmult;
  fdiv := Rdiv;
  fexp := exp;
  fmax := Rmax
}.

(** The sum over the tensors of their entry at position [i]. *)
Definition entry_sum (ts : list (Tensor R)) (i : nat) : R :=
  foldr Rplus 0%R ((fun t => nth i (data t) 0%R) <$> ts).

Definition arithmetic_mean (sh : list nat) (ts : list (Tensor R)) : Tensor R :=
  mkTensor sh
    ((fun i => (entry_sum ts i / INR (length ts))%R) <$> seq 0 (numel sh)).

(** A tensor of shape [sh] with every entry equal to [x]
    ([torch.full(sh, x)]). *)
Definition full {F} (sh : list nat) (x : F) : Tensor F :=
  mkTensor sh (replicate (numel sh) x).

(** Two vectors of two entries, to run [forward]. *)
Definition two_tensors : list (Tensor R) :=
  [full [2%nat] 1%R; full [2%nat] 3%R].

(** ** Embeddings *)

(** Data points are Python objects shared between the caller and every
    embedding: they are named by their identity and live in a heap. *)
Abbreviation loc := positive.

Record DataPoint (V : Type) : Type := mkDataPoint {
  _embeddings : gmap string V
}.
Arguments mkDataPoint {V} _embeddings.
Arguments _embeddings {V} _.

(** The heap of data points, and the list of the calls made to the
    computation hook so far (each with the data points it was given). *)
Record World (V : Type) : Type := mkWorld {
  heap : gmap loc (DataPoint V);
  hook_calls : list (list loc)
}.
Arguments mkWorld {V} heap hook_calls.
Arguments heap {V} _.
Arguments hook_calls {V} _.

(** An embedding instance after construction: its two attributes and the
    [_add_embeddings_internal] of its class, which works on the data
    points and may raise. *)
Record Embeddings (V : Type) : Type := mkEmbeddings {
  name : string;
  static_embeddings : bool;
  _add_embeddings_internal :
    list loc -> Py (gmap loc (DataPoint V)) unit
}.
Arguments mkEmbeddings {V} name static_embeddings _add_embeddings_internal.
Arguments name {V} _.
Arguments static_embeddings {V} _.
Arguments _add_embeddings_internal {V} _ _ _.

(** The argument of [embed]: one data point or a list of them. *)
Inductive embed_arg : Type :=
| One (data_point : loc)
| Many (data_points : list loc).

Section Embed.
Context {V : Type}.

(** [data_point._embeddings]; an object without that attribute is not
    in the heap. *)
Definition get_embeddings (data_point : loc) : Py (World V) (gmap string V) :=
  fun w =>
    match heap w !! data_point with
    | Some d => Returns (_embeddings d) w
    | None => Raises (AttributeError "_embeddings") w
    end.

(** [Embeddings._everything_embedded]. *)
Fixpoint _everything_embedded (self : Embeddings V) (data_points : list loc)
  : Py (World V) bool :=
  match data_points with
  | [] => mret true
  | data_point :: rest =>
      embeddings ← get_embeddings data_point;
      if bool_decide (name self ∉ dom embeddings)
      then mret false
      else _everything_embedded self rest
  end.

(** The call [self._add_embeddings_internal(data_points)]: it is entered
    in [hook_calls], then the hook runs on the heap. *)
Definition call_hook (self : Embeddings V) (data_points : list loc)
  : Py (World V) unit :=
  fun w =>
    let calls := hook_calls w ++ [data_points] in
    match _add_embeddings_internal self data_points (heap w) with
    | Returns _ h => Returns tt (mkWorld h calls)
    | Raises e h => Raises e (mkWorld h calls)
    end.

Definition as_list (data_points : embed_arg) : list loc :=
  match data_points with
  | Many l => l
  | One d => [d]
  end.

(** [Embeddings.embed]. *)
Definition embed (self : Embeddings V) (data_points : embed_arg)
  : Py (World V) (list loc) :=
  let data_points := as_list data_points in
  embedded ← _everything_embedded self data_points;
  (if negb embedded || negb (static_embeddings self)
   then call_hook self data_points
   else mret tt);;
  mret data_points.

(** [embed] called [k] times in a row on the same argument. *)
Fixpoint embed_times (k : nat) (self : Embeddings V)
    (data_points : embed_arg) : Py (World V) unit :=
  match k with
  | O => mret tt
  | S k' => embed self data_points;; embed_times k' self data_points
  end.

(** Every listed object is a data point. *)
Definition are_data_points (data_points : list loc) (w : World V) : Prop :=
  Forall (fun l => is_Some (heap w !! l)) data_points.

(** Every listed object is a data point that has a vector under [nm]. *)
Definition all_carry (nm : string) (data_points : list loc) (w : World V)
  : Prop :=
  Forall (fun l => exists d, heap w !! l = Some d /\ nm ∈ dom (_embeddings d))
         data_points.
End Embed.

(** ** The constructor of [Embeddings] *)

Inductive pyobj : Type :=
| PyNone
| PyBool (b : bool)
| PyInt (z : Z)
| PyStr (s : string)
| PyClass (class_name : string) (init_parameters : list string)
| PyObject (id : positive).

(** What [hasattr] and attribute access see of an instance. *)
Abbreviation attributes := (gmap string pyobj).

Definition hasattr (self : attributes) (attr : string) : bool :=
  bool_decide (is_Some (self !! attr)).

Section EmbeddingsInit.
(** [torch.nn.Module.__init__], reached by [super().__init__()]. *)
Variable module_init : attributes -> attributes.

(** [Embeddings.__init__]. *)
Definition Embeddings_init (self : attributes) : attributes :=
  let self :=
    if negb (hasattr self "name")
    then <["name" := PyStr "unnamed_embedding"]> self
    else self in
  let self :=
    if negb (hasattr self "static_embeddings")
    then <["static_embeddings" := PyBool false]> self
    else self in
  module_init self.
End EmbeddingsInit.

(** ** The constructor-introspection helper *)

(** A [dict]: its items in insertion order. *)
Abbreviation dict := (list (string * pyobj)).

(** [d.get(key)], [None] when the key is absent. *)
Definition dict_get (d : dict) (key : string) : pyobj :=
  match list_find (fun kv => kv.1 = key) d with
  | Some (_, (_, v)) => v
  | None => PyNone
  end.

(** The parameter names of [inspect.signature(obj.__init__)], in
    signature order. A class gives the parameters of its constructor,
    [self] included; any other object is taken to have the [__init__]
    of [object], as [None], numbers and strings have, whose signature is
    [(self, /, *args, **kwargs)]. *)
Definition init_signature (obj : pyobj) : list string :=
  match obj with
  | PyClass _ params => params
  | _ => ["self"; "args"; "kwargs"]
  end.

(** [set.remove]. *)
Definition set_remove (key : string) (s : gset string) : result (gset string) :=
  if bool_decide (key ∈ s) then Ok (s ∖ {[key]}) else Err (KeyError key).

(** [Embeddings.get_instance_parameters]. *)
Definition get_instance_parameters (locals : dict) : result dict :=
  let class_definition := dict_get locals "__class__" in
  let instance_parameter_names : gset string :=
    list_to_set (init_signature class_definition) in
  instance_parameter_names ← set_remove "self" instance_parameter_names;
  let instance_parameter_names := instance_parameter_names ∪ {["__class__"]} in
  mret (filter (fun kv => kv.1 ∈ instance_parameter_names) locals).

(** The keys of a mapping other than the class marker, and the declared
    parameters other than [self], each in their order. *)
Definition parameter_keys (d : dict) : list string :=
  filter (fun k => k ≠ "__class__") (d.*1).

Definition declared_parameters (params : list string) : list string :=
  filter (fun k => k ≠ "self") params.

(** ** A concrete embedding, used to run the definitions *)

(** A hook that stores the vector [v] under [nm] in every data point it
    is given. *)
Definition store_under (nm : string) (v : nat)
  : list loc -> Py (gmap loc (DataPoint nat)) unit :=
  fun data_points h =>
    Returns tt
      (foldr (fun l h' =>
                alter (fun d => mkDataPoint (<[nm := v]> (_embeddings d))) l h')
             h data_points).

Definition glove (static : bool) : Embeddings nat :=
  mkEmbeddings "glove" static (store_under "glove" 7%nat).

(** One data point that carries a vector under ["glove"], one that does
    not. *)
Definition two_points : World nat :=
  mkWorld
    (<[1%positive := mkDataPoint {["glove" := 7%nat]}]>
       (<[2%positive := mkDataPoint ∅]> ∅))
    [].

(** A stand-in for [torch.nn.Module.__init__] that sets the [training]
    flag, used to run [Embeddings_init]. *)
Definition set_training (self : attributes) : attributes :=
  <["training" := PyBool true]> self.

(** The entries that [get_instance_parameters] keeps. *)
Definition kept (params : list string) (kv : string * pyobj) : Prop :=
  kv.1 = "__class__" \/ (kv.1 ∈ params /\ kv.1 ≠ "self").

#[global] Instance kept_dec params kv : Decision (kept params kv).
Proof. unfold kept. apply _. Defined.

(** The claim that the mapping returned for [locals] lists the declared
    parameters in the order of the signature. *)
Definition reflects_signature (locals : dict) : Prop :=
  forall class_name params r,
    dict_get locals "__class__" = PyClass class_name params ->
    get_instance_parameters locals = Ok r ->
    parameter_keys r = declared_parameters params.

(** A class with [def __init__(self, a, *args, b)], and what [locals()]
    holds in that constructor: the parameters with the keyword-only ones
    before [*args], then the [__class__] cell. *)
Definition varargs_class : pyobj :=
  PyClass "E" ["self"; "a"; "args"; "b"].

Definition varargs_locals : dict :=
  [("self", PyObject 1); ("a", PyInt 1); ("b", PyInt 2);
   ("args", PyObject 2); ("__class__", varargs_class)].

(** A class with [def __init__(self, a, b)] and the [locals()] of its
    constructor. *)
Definition plain_class : pyobj := PyClass "E" ["self"; "a"; "b"].

Definition plain_locals : dict :=
  [("self", PyObject 1); ("a", PyInt 1); ("b", PyInt 2);
   ("tmp", PyStr "x"); ("__class__", plain_class)].

(** ** The rest of the interface of [Embeddings] *)

(** The value or the exception of an outcome, the final state left out. *)
Definition result_of {S A} (o : outcome S A) : result A :=
  match o with
  | Returns a _ => Ok a
  | Raises e _ => Err e
  end.

Section EmbeddingsInterface.
Context {V : Type}.

(** [Embeddings.get_names]. *)
Definition get_names (self : Embeddings V) : list string := [name self].

(** [Embeddings.get_named_embeddings_dict]. *)
Definition get_named_embeddings_dict (self : Embeddings V)
  : gmap string (Embeddings V) :=
  {[name self := self]}.

(** The body of [Embeddings._add_embeddings_internal] in the base class:
    [pass]. *)
Definition base_add_embeddings_internal (sentences : list loc)
  : Py (gmap loc (DataPoint V)) unit :=
  mret tt.

(** A hook that, given data points, returns and leaves a vector under
    [nm] in each of them. *)
Definition hook_stores (nm : string)
    (hook : list loc -> Py (gmap loc (DataPoint V)) unit) : Prop :=
  forall (data_points : list loc) (h : gmap loc (DataPoint V)),
    Forall (fun l => is_Some (h !! l)) data_points ->
    exists h',
      hook data_points h = Returns tt h'
      /\ Forall (fun l => exists d, h' !! l = Some d
                                   /\ nm ∈ dom (_embeddings d))
                data_points.
End EmbeddingsInterface.

(** ** Modules with other parameters *)

(** The module [m] with the scalar [g] as its [gamma]. *)
Definition with_gamma {F} (m : ScalarMix F) (g : F) : ScalarMix F :=
  mkScalarMix (mixture_size m) (scalar_parameters m)
    (mkParameter (mkTensor [1%nat] [g]) (requires_grad (gamma m))).

(** The normalised weight that [softmax_list] gives to each of [n] equal
    scalar weights [w]. *)
Definition uniform_weight {F} {FS : Scalar F} (n : nat) (w : F) : F :=
  let m := foldl fmax w (replicate (pred n) w) in
  let e := fexp (fsub w m) in
  fdiv e (foldl fadd (of_Z 0) (replicate n e)).

(** ** [torch.float] as IEEE 754 binary32

    Single-precision arithmetic, every operation rounded to nearest even,
    as the standard library specifies it (24 bits of precision, maximal
    exponent 128). The exponential belongs to the C library: it is a
    parameter of the arithmetic. *)

Abbreviation float32 := SpecFloat.spec_float.

Definition binary32 (z : Z) : float32 :=
  SpecFloat.binary_normalize 24 128 z 0 false.

Definition max32 (a b : float32) : float32 :=
  if SpecFloat.SFltb a b then b else a.

Definition binary32_scalar (exp32 : float32 -> float32) : Scalar float32 := {|
  of_Z := binary32;
  fadd := SpecFloat.SFadd 24 128;
  fsub := SpecFloat.SFsub 24 128;
  fmul := SpecFloat.SFmul 24 128;
  fdiv := SpecFloat.SFdiv 24 128;
  fexp := exp32;
  fmax := max32
|}.

(** A function that agrees with the exponential at 0, to run the
    definitions where only [exp(0)] is needed. *)
Definition exp_at_zero : float32 -> float32 := fun _ => binary32 1.

Definition is_finite32 (x : float32) : Prop :=
  match x with
  | SpecFloat.S754_zero _ | SpecFloat.S754_finite _ _ _ => True
  | _ => False
  end.

(** The real number that a finite float stands for. *)
Definition float32_value (x : float32) : R :=
  match x with
  | SpecFloat.S754_finite s m e =>
      ((if s then -1 else 1) * IZR (Zpos m) * powerRZ 2 e)%R
  | _ => 0%R
  end.

Definition values (t : Tensor float32) : Tensor R :=
  mkTensor (shape t) (float32_value <$> data t).

(** The claim that a fresh module returns the arithmetic mean, read in
    binary32: the numbers that the entries of the result stand for are
    the means of the numbers that the entries of the inputs stand for. *)
Definition returns_mean (exp32 : float32 -> float32)
    (tensors : list (Tensor float32)) (sh : list nat) : Prop :=
  let FS := binary32_scalar exp32 in
  let m := fresh (Z.of_nat (length tensors)) false in
  exists out,
    forward tensors (mkEnv m []) = Returns out (mkEnv m [])
    /\ values out = arithmetic_mean sh (values <$> tensors).

Definition mean_claim : Prop :=
  forall exp32 : float32 -> float32,
    exp32 (binary32 0) = binary32 1 ->
    forall (tensors : list (Tensor float32)) (sh : list nat),
      tensors ≠ [] -> sh ≠ [] -> Forall (shaped sh) tensors ->
      Forall (fun t => Forall is_finite32 (data t)) tensors ->
      returns_mean exp32 tensors sh.

(** Three tensors of shape (2,2) filled with 7.0, and what a fresh
    [ScalarMix(3)] returns on them in binary32: every entry is
    [14680065 * 2^-21], about 7.0000005. *)
Definition sevens : list (Tensor float32) :=
  replicate 3 (full [2; 2]%nat (binary32 7)).

Definition sevens_rounded : Prop :=
  forall exp32 : float32 -> float32,
    exp32 (binary32 0) = binary32 1 ->
    let FS := binary32_scalar exp32 in
    forall lg,
      forward sevens (mkEnv (fresh 3 false) lg)
      = Returns
          (full [2; 2]%nat (SpecFloat.S754_finite false 14680065 (-21)))
          (mkEnv (fresh 3 false) lg).

(** The three tensors of shape (2,2) filled with 1.0, 2.0 and 3.0. *)
Definition one_two_three : list (Tensor float32) :=
  [full [2; 2]%nat (binary32 1); full [2; 2]%nat (binary32 2);
   full [2; 2]%nat (binary32 3)].
(** * Properties *)

(** ** Lists cut into blocks *)

Lemma chunks_S {A} (n sz : nat) (d : list A) :
  chunks (S n) sz d = take sz d :: chunks n sz (drop sz d).
Proof.
  unfold chunks. cbn [seq fmap list_fmap]. f_equal.
  rewrite <- fmap_S_seq, <- list_fmap_compose.
  apply list_fmap_ext. intros _ i _. cbn.
  by rewrite drop_drop.
Qed.

Lemma concat_chunks {A} (n sz : nat) (d : list A) :
  length d = (n * sz)%nat -> concat (chunks n sz d) = d.
Proof.
  revert d. induction n as [|n IH]; intros d Hd.
  - by destruct d.
  - rewrite chunks_S. cbn [concat]. rewrite IH, take_drop; [done|].
    rewrite length_drop. lia.
Qed.

Lemma Forall_length_chunks {A} (n sz : nat) (d : list A) :
  length d = (n * sz)%nat -> Forall (fun c => length c = sz) (chunks n sz d).
Proof.
  revert d. induction n as [|n IH]; intros d Hd.
  - constructor.
  - rewrite chunks_S. constructor.
    + rewrite length_take. lia.
    + apply IH. rewrite length_drop. lia.
Qed.

Lemma chunks_singletons {A} (xs : list A) :
  chunks (length xs) 1 xs = (fun x => [x]) <$> xs.
Proof.
  induction xs as [|x xs IH]; [done|].
  cbn [length]. rewrite chunks_S. cbn. by rewrite drop_0, IH.
Qed.

(** ** Broadcasting *)

Section TorchFacts.
Context {F : Type} {FS : Scalar F}.

Lemma numel_ones (r : nat) : numel (replicate r 1%nat) = 1%nat.
Proof.
  induction r as [|r IH]; [done|].
  change (1 * numel (replicate r 1%nat) = 1)%nat. lia.
Qed.

Lemma expand_id (sh : list nat) (d : list F) :
  length d = numel sh -> expand sh sh d = d.
Proof.
  revert d. induction sh as [|a sh IH]; intros d Hd; [done|].
  cbn [expand]. rewrite Nat.eqb_refl.
  cbn [numel foldr] in Hd. fold (numel sh) in Hd.
  rewrite <- (concat_chunks a (numel sh) d Hd) at 2. f_equal.
  rewrite <- (list_fmap_id (chunks a (numel sh) d)) at 2.
  apply Forall_fmap_ext.
  eapply Forall_impl; [by apply Forall_length_chunks|].
  intros c Hc. by apply IH.
Qed.

Lemma concat_replicate_replicate {A} (b m : nat) (x : A) :
  concat (replicate b (replicate m x)) = replicate (b * m) x.
Proof.
  induction b as [|b IH]; [done|].
  cbn [replicate concat]. rewrite IH, <- replicate_add. done.
Qed.

Lemma expand_ones (sh : list nat) (x : F) :
  expand (replicate (length sh) 1%nat) sh [x] = replicate (numel sh) x.
Proof.
  induction sh as [|b sh IH]; [done|].
  cbn [length replicate expand]. rewrite numel_ones.
  change (chunks 1 1 [x]) with [[x]].
  cbn [fmap list_fmap concat]. rewrite IH, app_nil_r.
  cbn [numel foldr]. fold (numel sh).
  destruct (Nat.eqb_spec 1 b) as [<-|_].
  - f_equal. lia.
  - apply concat_replicate_replicate.
Qed.

Lemma broadcast_rev_same (r : list nat) : broadcast_rev r r = Some r.
Proof.
  induction r as [|a r IH]; [done|].
  cbn. by rewrite Nat.eqb_refl, IH.
Qed.

Lemma broadcast_rev_nil_r (r : list nat) : broadcast_rev r [] = Some r.
Proof. by destruct r. Qed.

Lemma broadcast_shapes_same (s : list nat) : broadcast_shapes s s = Some s.
Proof.
  unfold broadcast_shapes. rewrite broadcast_rev_same. cbn.
  by rewrite reverse_involutive.
Qed.

Lemma broadcast_shapes_nil_r (s : list nat) : broadcast_shapes s [] = Some s.
Proof.
  unfold broadcast_shapes. rewrite broadcast_rev_nil_r. cbn.
  by rewrite reverse_involutive.
Qed.

Lemma broadcast_shapes_unit_l (s : list nat) :
  s ≠ [] -> broadcast_shapes [1%nat] s = Some s.
Proof.
  intros Hs. unfold broadcast_shapes.
  destruct (reverse s) as [|b r] eqn:Hr.
  - apply (f_equal reverse) in Hr. rewrite reverse_involutive in Hr. done.
  - change (reverse [1%nat]) with [1%nat]. cbn [broadcast_rev].
    assert (Hs' : reverse (b :: r) = s)
      by (by rewrite <- Hr, reverse_involutive).
    destruct (Nat.eqb_spec 1 b) as [<-|_]; cbn [fmap option_fmap option_map Nat.eqb];
      by rewrite Hs'.
Qed.

Lemma zip_with_replicate_l {A B C} (f : A -> B -> C) (x : A) (l : list B) :
  zip_with f (replicate (length l) x) l = f x <$> l.
Proof. induction l as [|y l IH]; [done|]. cbn. by rewrite IH. Qed.

Lemma zip_with_replicate_r {A B C} (f : A -> B -> C) (l : list A) (y : B) :
  zip_with f l (replicate (length l) y) = (fun x => f x y) <$> l.
Proof. induction l as [|x l IH]; [done|]. cbn. by rewrite IH. Qed.

Lemma pad_shape_nil (r : nat) : pad_shape r [] = replicate r 1%nat.
Proof. unfold pad_shape. cbn. by rewrite app_nil_r, Nat.sub_0_r. Qed.

Lemma pad_shape_unit (r : nat) :
  (1 <= r)%nat -> pad_shape r [1%nat] = replicate r 1%nat.
Proof.
  intros Hr. unfold pad_shape. cbn [length].
  change [1%nat] with (replicate 1 1%nat).
  rewrite <- replicate_add. f_equal. lia.
Qed.

Lemma pad_shape_full (s : list nat) : pad_shape (length s) s = s.
Proof. unfold pad_shape. by rewrite Nat.sub_diag. Qed.

(** Two tensors of one shape are combined entry by entry. *)
Lemma broadcast_op_same_shape (f : F -> F -> F) (x y : Tensor F) :
  shape y = shape x -> well_shaped x -> well_shaped y ->
  broadcast_op f x y = Ok (mkTensor (shape x) (zip_with f (data x) (data y))).
Proof.
  unfold broadcast_op, well_shaped. intros -> Hx Hy.
  rewrite broadcast_shapes_same, pad_shape_full.
  by rewrite !expand_id.
Qed.

(** A one-entry vector scales (or shifts) every entry of the other
    operand. *)
Lemma broadcast_op_unit_l (f : F -> F -> F) (w : F) (t : Tensor F) :
  shape t ≠ [] -> well_shaped t ->
  broadcast_op f (mkTensor [1%nat] [w]) t
  = Ok (mkTensor (shape t) (f w <$> data t)).
Proof.
  unfold broadcast_op, well_shaped. intros Hs Ht. cbn [shape data].
  rewrite broadcast_shapes_unit_l by done.
  rewrite pad_shape_full, pad_shape_unit
    by (destruct (shape t); [done | cbn; lia]).
  rewrite expand_ones, expand_id by done.
  by rewrite <- Ht, zip_with_replicate_l.
Qed.

Lemma broadcast_op_number_r (f : F -> F -> F) (t : Tensor F) (z : Z) :
  well_shaped t ->
  broadcast_op f t (wrapped_number z)
  = Ok (mkTensor (shape t) ((fun x => f x (of_Z z)) <$> data t)).
Proof.
  unfold broadcast_op, well_shaped. intros Ht. cbn [shape data wrapped_number].
  rewrite broadcast_shapes_nil_r, pad_shape_full, pad_shape_nil.
  rewrite expand_ones, expand_id by done.
  by rewrite <- Ht, zip_with_replicate_r.
Qed.
End TorchFacts.

(** ** The steps of [forward] on the parameters of a module *)

Lemma bind_lift_Ok {S A B} (a : A) (k : A -> Py S B) (s : S) :
  (lift (Ok a) ≫= k) s = k a s.
Proof. done. Qed.

Section ForwardFacts.
Context {F : Type} {FS : Scalar F}.

Lemma forallb_same_tail_units (ws : list F) :
  forallb (same_tail []) (unit_vector <$> ws) = true.
Proof. induction ws as [|w ws IH]; [done|]. exact IH. Qed.

Lemma sum_rows_units (ws : list F) :
  sum_list ((fun u => hd 0%nat (shape u)) <$> (unit_vector <$> ws))
  = length ws.
Proof.
  induction ws as [|w ws IH]; [done|].
  cbn [fmap list_fmap sum_list sum_list_with length] in *.
  by rewrite IH.
Qed.

Lemma concat_data_units (ws : list F) :
  concat (data <$> (unit_vector <$> ws)) = ws.
Proof.
  induction ws as [|w ws IH]; [done|].
  cbn [fmap list_fmap concat] in *. by rewrite IH.
Qed.

Lemma cat_unit_vectors (ws : list F) :
  ws ≠ [] -> cat (unit_vector <$> ws) = Ok (mkTensor [length ws] ws).
Proof.
  intros Hws. destruct ws as [|w ws]; [done|].
  change (cat (unit_vector <$> w :: ws))
    with (if forallb (same_tail []) (unit_vector <$> w :: ws)
          then Ok (mkTensor
                     [sum_list ((fun u => hd 0%nat (shape u))
                                  <$> (unit_vector <$> w :: ws))]
                     (concat (data <$> (unit_vector <$> w :: ws))))
          else Err (RuntimeError
                      "Sizes of tensors must match except in dimension 0")).
  by rewrite forallb_same_tail_units, sum_rows_units, concat_data_units.
Qed.

Lemma slice0_vector (ws : list F) : slice0 (length ws) 1 0 ws = ws.
Proof.
  unfold slice0.
  assert (Hgen : forall pre, omap (fun i => (pre ++ ws) !! (i * 1 + 0)%nat)
                   (seq (length pre) (length ws)) = ws).
  { induction ws as [|w ws IH]; intros pre; [done|].
    cbn [length seq omap list_omap].
    replace (length pre * 1 + 0)%nat with (length pre) by lia.
    rewrite list_lookup_middle by done.
    f_equal. specialize (IH (pre ++ [w])).
    rewrite <- app_assoc, length_app in IH. cbn in IH.
    rewrite Nat.add_1_r in IH. exact IH. }
  exact (Hgen []).
Qed.

Lemma imap_lookup_default {A} (l l' : list A) :
  length l' = length l ->
  imap (fun p x => default x (l' !! p)) l = l'.
Proof.
  revert l'. induction l as [|x l IH]; intros [|y l'] Hlen; try done.
  cbn. f_equal. apply IH. by injection Hlen.
Qed.

Lemma length_softmax_list (ws : list F) :
  length (softmax_list ws) = length ws.
Proof.
  destruct ws as [|w ws]; [done|].
  unfold softmax_list. by rewrite !length_fmap.
Qed.

Lemma softmax0_vector (ws : list F) :
  softmax0 (mkTensor [length ws] ws)
  = mkTensor [length ws] (softmax_list ws).
Proof.
  unfold softmax0. cbn [shape data dim0 numel foldr]. f_equal.
  rewrite <- (imap_lookup_default ws (softmax_list ws))
    by apply length_softmax_list.
  apply imap_ext. intros p x _. cbv beta zeta.
  by rewrite Nat.mod_1_r, Nat.div_1_r, slice0_vector.
Qed.

Lemma split1_vector (xs : list F) :
  split1 (mkTensor [length xs] xs) = Ok (unit_vector <$> xs).
Proof.
  unfold split1. cbn [shape data numel foldr]. f_equal.
  rewrite chunks_singletons, <- list_fmap_compose. done.
Qed.

Lemma values_of_module (m : ScalarMix F) :
  module_ok m -> value <$> scalar_parameters m = unit_vector <$> weights m.
Proof.
  intros [_ Hp _]. unfold weights.
  rewrite <- list_fmap_compose.
  apply Forall_fmap_ext. eapply Forall_impl; [exact Hp|].
  intros p Hv. exact Hv.
Qed.

Lemma length_weights (m : ScalarMix F) :
  module_ok m -> length (weights m) = Z.to_nat (mixture_size m).
Proof. intros [Hc _ _]. unfold weights. by rewrite length_fmap. Qed.

Lemma zip_unit_vectors {B} (s : list F) (ts : list B) :
  zip (unit_vector <$> s) ts = prod_map unit_vector (fun t => t) <$> zip s ts.
Proof.
  revert ts. induction s as [|w s IH]; intros [|t ts]; try done.
  cbn. by rewrite IH.
Qed.

Lemma mapM_ext_result {A B} (f g : A -> result B) (l : list A) :
  (forall a, f a = g a) -> mapM f l = mapM g l.
Proof.
  intros Hfg. induction l as [|a l IH]; [done|]. cbn. by rewrite Hfg, IH.
Qed.

Lemma mapM_fmap_result {A B C} (f : B -> result C) (g : A -> B) (l : list A) :
  mapM f (g <$> l) = mapM (fun a => f (g a)) l.
Proof. induction l as [|a l IH]; [done|]. cbn. by rewrite IH. Qed.

(** [forward] is the log record, if any, followed by [mix] on the
    normalised weights. *)
Lemma forward_eq (m : ScalarMix F) (ts : list (Tensor F))
    (lg : list LogRecord) :
  module_ok m -> 1 <= mixture_size m ->
  forward ts (mkEnv m lg)
  = lift (mix (softmax_list (weights m)) (scale m) ts)
      (mkEnv m (lg ++ mismatch_record (length ts) (mixture_size m))).
Proof.
  intros Hok Hsize.
  assert (Hne : weights m ≠ []).
  { intros Hnil. apply (f_equal length) in Hnil.
    rewrite length_weights in Hnil by done. cbn in Hnil. lia. }
  unfold forward, mismatch_record, mix.
  unfold mbind at 1; unfold Py_bind at 1; unfold gets at 1. cbn [self].
  unfold mbind at 1; unfold Py_bind at 1.
  case_bool_decide;
    [unfold log_error, modify | unfold mret at 1, Py_ret; rewrite app_nil_r];
    cbn [self log].
  all: rewrite values_of_module, cat_unit_vectors by done.
  all: rewrite bind_lift_Ok; cbv zeta; rewrite softmax0_vector.
  all: rewrite <- (length_softmax_list (weights m)), split1_vector.
  all: rewrite bind_lift_Ok, zip_unit_vectors, mapM_fmap_result.
  all: rewrite (mapM_ext_result _
                  (fun '(w, t) => tensor_mul (unit_vector w) t))
         by (by intros [w t]).
  all: destruct (mapM _ _) as [pieces|e]; [|done].
  all: rewrite bind_lift_Ok; cbn [mbind result_bind].
  all: unfold gets; unfold mbind at 1; unfold Py_bind at 1; cbn [self].
  all: rewrite (ok_gamma m Hok).
  all: by destruct (py_sum pieces) as [total|e].
Qed.
End ForwardFacts.

(** ** The mixture, by index and entry by entry *)

Section MixFacts.
Context {F : Type} {FS : Scalar F}.

Lemma weighted_term_S (w : F) (s : list F) (t : Tensor F)
    (ts : list (Tensor F)) (k : nat) :
  weighted_term (w :: s) (t :: ts) (S k) = weighted_term s ts k.
Proof. done. Qed.

(** The pairs met by the loop over [zip] are those at the indices below
    the length of the shorter list. *)
Lemma mapM_zip_index (s : list F) (ts : list (Tensor F)) :
  mapM (fun '(w, t) => tensor_mul (unit_vector w) t) (zip s ts)
  = mapM (weighted_term s ts) (seq 0 (length s `min` length ts)).
Proof.
  revert ts. induction s as [|w s IH]; intros [|t ts]; try done.
  cbn [length Nat.min seq zip_with].
  rewrite <- fmap_S_seq.
  change (mapM ?f (?x :: ?l)) with (y ← f x; k ← mapM f l; mret (y :: k)).
  rewrite mapM_fmap_result.
  rewrite (mapM_ext_result _ (weighted_term s ts))
    by (intros k; apply weighted_term_S).
  by rewrite IH.
Qed.

Lemma mix_by_index (s : list F) (g : F) (ts : list (Tensor F)) :
  mix s g ts = scalar_mixture s g ts (length s `min` length ts).
Proof. unfold mix, scalar_mixture. by rewrite mapM_zip_index. Qed.

Lemma length_add_all (n : nat) (acc : list F) (ps : list (list F)) :
  length acc = n -> Forall (fun p => length p = n) ps ->
  length (add_all acc ps) = n.
Proof.
  revert acc. induction ps as [|p ps IH]; intros acc Hacc Hps; [done|].
  apply Forall_cons in Hps as [Hp Hps]. cbn [add_all].
  apply IH; [|done]. rewrite length_zip_with. lia.
Qed.

Section SameShape.
Variable sh : list nat.
Hypothesis sh_rank : sh ≠ [].

Lemma pieces_same_shape (s : list F) (ts : list (Tensor F)) :
  Forall (shaped sh) ts ->
  mapM (fun '(w, t) => tensor_mul (unit_vector w) t) (zip s ts)
  = Ok (mkTensor sh <$> zip_with (fun w t => fmul w <$> data t) s ts).
Proof.
  revert ts. induction s as [|w s IH]; intros [|t ts] Hts; try done.
  apply Forall_cons in Hts as [[Hsh Hwf] Hts].
  cbn [zip_with fmap list_fmap].
  change (mapM ?f (?x :: ?l)) with (y ← f x; k ← mapM f l; mret (y :: k)).
  rewrite IH by done. unfold tensor_mul, unit_vector.
  rewrite broadcast_op_unit_l by (by rewrite ?Hsh).
  by rewrite Hsh.
Qed.

Lemma Forall_length_pieces (s : list F) (ts : list (Tensor F)) :
  Forall (shaped sh) ts ->
  Forall (fun p => length p = numel sh)
         (zip_with (fun w t => fmul w <$> data t) s ts).
Proof.
  revert ts. induction s as [|w s IH]; intros [|t ts] Hts;
    try by constructor.
  apply Forall_cons in Hts as [[Hsh Hwf] Hts].
  cbn [zip_with]. constructor; [|by apply IH].
  rewrite length_fmap. unfold well_shaped in Hwf. by rewrite Hwf, Hsh.
Qed.

Lemma sum_from_same_shape (acc : list F) (ps : list (list F)) :
  length acc = numel sh ->
  Forall (fun p => length p = numel sh) ps ->
  sum_from (PTensor (mkTensor sh acc)) (mkTensor sh <$> ps)
  = Ok (PTensor (mkTensor sh (add_all acc ps))).
Proof.
  revert acc. induction ps as [|p ps IH]; intros acc Hacc Hps; [done|].
  apply Forall_cons in Hps as [Hp Hps].
  cbn [fmap list_fmap sum_from py_add add_all]. unfold tensor_add.
  rewrite broadcast_op_same_shape by done.
  cbn [fmap result_fmap mbind result_bind shape data].
  apply IH; [|done].
  rewrite length_zip_with. lia.
Qed.

(** On tensors of one shape, [mix] returns a tensor of that shape whose
    entries are given by [mixture_data]. *)
Lemma mix_same_shape (s : list F) (g : F) (ts : list (Tensor F)) :
  Forall (shaped sh) ts ->
  mix s g ts = Ok (mkTensor (mixture_shape sh s ts) (mixture_data s g ts)).
Proof.
  intros Hts. unfold mix, mixture_shape, mixture_data.
  rewrite pieces_same_shape by done.
  pose proof (Forall_length_pieces s ts Hts) as Hlen.
  destruct s as [|w s], ts as [|t ts]; try done.
  cbn [zip_with] in *. apply Forall_cons in Hlen as [Hp Hlen].
  cbn [mbind result_bind fmap list_fmap].
  unfold py_sum. cbn [sum_from py_add]. unfold tensor_add.
  rewrite broadcast_op_number_r by exact Hp.
  cbn [fmap result_fmap mbind result_bind shape data].
  rewrite sum_from_same_shape; [|by rewrite length_fmap|done].
  cbn [mbind result_bind py_mul]. unfold tensor_mul, unit_vector.
  rewrite broadcast_op_unit_l; [done|done|].
  apply length_add_all; [by rewrite length_fmap|done].
Qed.
End SameShape.
End MixFacts.

(** ** Construction *)

Section InitFacts.
Context {F : Type} {FS : Scalar F}.

Lemma mapM_index_replicate {B} (g : F -> B) (x : F) (N k n : nat) :
  (k + n <= N)%nat ->
  mapM (fun i => y ← index (replicate N x) i; mret (g y)) (seq k n)
  = Ok (replicate n (g x)).
Proof.
  revert k. induction n as [|n IH]; intros k Hk; [done|].
  cbn [seq replicate].
  change (mapM ?f (?a :: ?l)) with (y ← f a; r ← mapM f l; mret (y :: r)).
  rewrite IH by lia. unfold index.
  rewrite lookup_replicate_2 by lia. done.
Qed.

Lemma ScalarMix_init_eq (n : Z) (trainable : bool) :
  ScalarMix_init n trainable = Ok (fresh n trainable).
Proof.
  unfold ScalarMix_init.
  rewrite (mapM_index_replicate
             (fun x => mkParameter (mkTensor [1%nat] [x]) trainable))
    by lia.
  done.
Qed.

Lemma fresh_ok (n : Z) (trainable : bool) : module_ok (fresh n trainable).
Proof.
  split; cbn.
  - by rewrite length_replicate.
  - by apply Forall_replicate.
  - done.
Qed.

Lemma weights_fresh (n : Z) (trainable : bool) :
  weights (fresh n trainable) = replicate (Z.to_nat n) (of_Z 0).
Proof. unfold weights, fresh. cbn. by rewrite fmap_replicate. Qed.

(** [forward] has no assignment to the module. *)
Lemma forward_keeps_self (ts : list (Tensor F)) (e : Env F) :
  self (final_state (forward ts e)) = self e.
Proof.
  unfold forward, mbind, Py_bind, gets, lift, log_error, modify, mret, Py_ret.
  destruct e as [m lg]. cbn [self log].
  case_bool_decide; cbn [self log];
    repeat (match goal with
            | |- context [match ?r with Ok _ => _ | Err _ => _ end] =>
                destruct r; cbn [self final_state]
            end); done.
Qed.
End InitFacts.

(** ** ScalarMix: the claims *)

Section ScalarMixClaims.
Context {F : Type} {FS : Scalar F}.

(** C6. [ScalarMix(n, trainable)] returns a module that keeps
    [mixture_size = n], holds one scalar weight per mixed tensor, each the
    one-entry tensor [0.0], and a [gamma] that is the one-entry tensor
    [1.0]; every weight and [gamma] carry [requires_grad = trainable];
    and a call of [forward], whatever its outcome, leaves the module,
    flags included, as it was. *)
Theorem ScalarMix_init_parameters (n : Z) (trainable : bool) :
  exists m : ScalarMix F,
    ScalarMix_init n trainable = Ok m
    /\ mixture_size m = n
    /\ length (scalar_parameters m) = Z.to_nat n
    /\ (forall p, p ∈ scalar_parameters m ->
          value p = mkTensor [1%nat] [of_Z 0]
          /\ requires_grad p = trainable)
    /\ value (gamma m) = mkTensor [1%nat] [of_Z 1]
    /\ requires_grad (gamma m) = trainable
    /\ (forall tensors lg,
          self (final_state (forward tensors (mkEnv m lg))) = m)
    /\ (1 <= n -> Z.of_nat (length (scalar_parameters m)) = n).
Proof.
  exists (fresh n trainable).
  split; [apply ScalarMix_init_eq|].
  split; [done|].
  split; [cbn; by rewrite length_replicate|].
  split.
  { intros p Hp. cbn in Hp. apply elem_of_replicate in Hp as [-> _]. done. }
  split; [done|]. split; [done|].
  split; [intros tensors lg; apply forward_keeps_self|].
  intros Hpos. cbn. rewrite length_replicate. lia.
Qed.

(** C1. On a module with [mixture_size >= 1] and a list of exactly
    [mixture_size] tensors, [forward] logs nothing and computes
    [gamma * sum_k softmax(w)_k * tensor_k] for [k] over all
    [mixture_size] indices, the softmax being that of the vector of the
    scalar weights; on tensors of one shape the result has that shape
    and its entries are those of [mixture_data]: each tensor scaled by
    its normalised weight, the scaled tensors added up, the sum
    multiplied by [gamma]. *)
Theorem forward_is_softmax_weighted_sum (m : ScalarMix F)
    (tensors : list (Tensor F)) (lg : list LogRecord) :
  module_ok m -> 1 <= mixture_size m ->
  Z.of_nat (length tensors) = mixture_size m ->
  forward tensors (mkEnv m lg)
  = lift (scalar_mixture (softmax_list (weights m)) (scale m) tensors
            (Z.to_nat (mixture_size m)))
      (mkEnv m lg)
  /\ forall sh, sh ≠ [] -> Forall (shaped sh) tensors ->
       forward tensors (mkEnv m lg)
       = Returns
           (mkTensor sh
              (mixture_data (softmax_list (weights m)) (scale m) tensors))
           (mkEnv m lg).
Proof.
  intros Hok Hsize Hlen.
  assert (Hs : length (softmax_list (weights m)) = length tensors).
  { rewrite length_softmax_list, length_weights by done. lia. }
  rewrite forward_eq by done.
  unfold mismatch_record. rewrite bool_decide_eq_false_2 by (by intros []).
  rewrite app_nil_r. split.
  - rewrite mix_by_index, Hs, Nat.min_id. do 3 f_equal. lia.
  - intros sh Hsh Hts. rewrite (mix_same_shape sh) by done.
    unfold mixture_shape.
    destruct (softmax_list (weights m)) as [|w s], tensors as [|t ts];
      cbn in *; try done; lia.
Qed.

(** C4. On a module with [mixture_size >= 1] and a list whose length
    differs from [mixture_size], [forward] sends one record to the
    logger and goes on: it computes [gamma * sum_k softmax(w)_k *
    tensor_k] for [k] below the length of the shorter of the two
    sequences; on tensors of one shape it returns. *)
Theorem forward_tolerates_count_mismatch (m : ScalarMix F)
    (tensors : list (Tensor F)) (lg : list LogRecord) :
  module_ok m -> 1 <= mixture_size m ->
  Z.of_nat (length tensors) ≠ mixture_size m ->
  let s := softmax_list (weights m) in
  let reported :=
    mkEnv m (lg ++ [mkLogRecord ERROR
                      (mismatch_message (length tensors) (mixture_size m))])
  in
  forward tensors (mkEnv m lg)
  = lift (scalar_mixture s (scale m) tensors
            (Z.to_nat (mixture_size m) `min` length tensors))
      reported
  /\ forall sh, sh ≠ [] -> Forall (shaped sh) tensors ->
       forward tensors (mkEnv m lg)
       = Returns
           (mkTensor (mixture_shape sh s tensors)
              (mixture_data s (scale m) tensors))
           reported.
Proof.
  intros Hok Hsize Hlen s reported.
  rewrite forward_eq by done.
  unfold mismatch_record. rewrite bool_decide_eq_true_2 by done.
  fold reported. split.
  - rewrite mix_by_index. unfold s.
    by rewrite length_softmax_list, length_weights.
  - intros sh Hsh Hts. by rewrite (mix_same_shape sh).
Qed.
End ScalarMixClaims.

(** ** Equal weights over the real numbers *)

Lemma foldl_Rmax_replicate (k : nat) (w : R) :
  foldl Rmax w (replicate k w) = w.
Proof.
  induction k as [|k IH]; [done|].
  cbn. rewrite Rmax_left by lra. exact IH.
Qed.

Lemma foldl_Rplus_replicate (k : nat) (a : R) :
  foldl Rplus a (replicate k 1%R) = (a + INR k)%R.
Proof.
  revert a. induction k as [|k IH]; intros a.
  - cbn. lra.
  - cbn [replicate foldl]. rewrite IH, S_INR. lra.
Qed.

(** The softmax of [n >= 1] equal weights is uniform. *)
Lemma softmax_list_equal (n : nat) (w : R) :
  (1 <= n)%nat -> softmax_list (replicate n w) = replicate n (/ INR n)%R.
Proof.
  intros Hn. destruct n as [|k]; [lia|].
  assert (HS : INR (S k) ≠ 0%R) by (apply not_0_INR; lia).
  change (replicate (S k) w) with (w :: replicate k w) at 1.
  unfold softmax_list. rewrite foldl_Rmax_replicate.
  change (w :: replicate k w) with (replicate (S k) w).
  rewrite !fmap_replicate. cbn [fsub fexp fdiv fadd of_Z R_scalar].
  rewrite Rminus_diag, exp_0, foldl_Rplus_replicate.
  f_equal. field. done.
Qed.

Lemma nth_add_all (i N : nat) (acc : list R) (ps : list (list R)) :
  (i < N)%nat -> length acc = N -> Forall (fun p => length p = N) ps ->
  nth i (add_all acc ps) 0%R
  = (nth i acc 0 + foldr Rplus 0 ((fun p => nth i p 0) <$> ps))%R.
Proof.
  intros Hi. revert acc. induction ps as [|p ps IH]; intros acc Hacc Hps.
  - cbn. lra.
  - apply Forall_cons in Hps as [Hp Hps]. cbn [add_all fmap list_fmap foldr].
    rewrite IH; [|rewrite length_zip_with; lia|done].
    destruct (lookup_lt_is_Some_2 acc i) as [a Ha]; [lia|].
    destruct (lookup_lt_is_Some_2 p i) as [b Hb]; [lia|].
    rewrite !nth_lookup, lookup_zip_with, Ha, Hb. cbn. 
    cbn [fadd R_scalar]. lra.
Qed.

Lemma entry_sum_scaled (c : R) (i : nat) (ts : list (Tensor R)) :
  foldr Rplus 0%R ((fun p => nth i p 0%R)
                     <$> ((fun t => Rmult c <$> data t) <$> ts))
  = (c * entry_sum ts i)%R.
Proof.
  unfold entry_sum. induction ts as [|t ts IH].
  - cbn. lra.
  - cbn [fmap list_fmap foldr]. rewrite IH.
    rewrite !nth_lookup, list_lookup_fmap.
    destruct (data t !! i); cbn; lra.
Qed.

(** With uniform weights and [gamma = 1] the entries are the means of the
    entries of the tensors. *)
Lemma mixture_data_uniform (sh : list nat) (ts : list (Tensor R)) :
  ts ≠ [] -> Forall (shaped sh) ts ->
  mixture_data (replicate (length ts) (/ INR (length ts))%R) 1%R ts
  = data (arithmetic_mean sh ts).
Proof.
  intros Hne Hts. unfold mixture_data.
  rewrite zip_with_replicate_l.
  pose proof (Forall_length_pieces sh
                (replicate (length ts) (/ INR (length ts))%R) ts Hts) as Hlen.
  rewrite zip_with_replicate_l in Hlen.
  set (c := (/ INR (length ts))%R) in *.
  assert (Hc : (INR (length ts) ≠ 0)%R)
    by (apply not_0_INR; destruct ts; [done | cbn; lia]).
  destruct ts as [|t ts]; [done|].
  cbn [fmap list_fmap] in *. apply Forall_cons in Hlen as [Hp Hlen].
  cbn [arithmetic_mean data fmul fadd of_Z R_scalar].
  apply (nth_ext _ _ 0%R 0%R).
  - rewrite !length_fmap, length_seq.
    apply length_add_all; [by rewrite length_fmap|done].
  - intros i Hi. rewrite length_fmap in Hi.
    rewrite (length_add_all (numel sh)) in Hi; [|by rewrite length_fmap|done].
    rewrite !nth_lookup, !list_lookup_fmap.
    rewrite lookup_seq_lt by done.
    cbn [fmap option_fmap option_map default Nat.add].
    assert (Hadd : is_Some (add_all ((fun x => (x + 0)%R) <$> (Rmult c <$> data t))
               ((fun t => Rmult c <$> data t) <$> ts) !! i)).
    { apply lookup_lt_is_Some_2.
      rewrite (length_add_all (numel sh)); [done|by rewrite length_fmap|done]. }
    destruct Hadd as [x Hx]. rewrite Hx.
    apply (f_equal (default 0%R)) in Hx. rewrite <- nth_lookup in Hx.
    rewrite (nth_add_all i (numel sh)) in Hx;
      [|done|by rewrite length_fmap|done].
    rewrite entry_sum_scaled in Hx.
    rewrite length_fmap in Hp.
    destruct (lookup_lt_is_Some_2 (data t) i) as [a Ha]; [lia|].
    rewrite !nth_lookup, !list_lookup_fmap, Ha in Hx.
    unfold entry_sum. cbn [fmap list_fmap foldr].
    rewrite nth_lookup, Ha. fold (entry_sum ts i).
    cbv [default from_option fmap option_fmap option_map Datatypes.id] in Hx |- *.
    subst x. unfold c. cbn [length]. field. done.
Qed.

Lemma equal_weights_forward_is_mean (m : ScalarMix R) (w : R)
    (tensors : list (Tensor R)) (sh : list nat) (lg : list LogRecord) :
  module_ok m -> 1 <= mixture_size m ->
  weights m = replicate (Z.to_nat (mixture_size m)) w -> scale m = 1%R ->
  Z.of_nat (length tensors) = mixture_size m ->
  sh ≠ [] -> Forall (shaped sh) tensors ->
  forward tensors (mkEnv m lg)
  = Returns (arithmetic_mean sh tensors) (mkEnv m lg).
Proof.
  intros Hok Hsize Hw Hg Hlen Hsh Hts.
  assert (Hn : Z.to_nat (mixture_size m) = length tensors) by lia.
  rewrite forward_eq by done.
  unfold mismatch_record. rewrite bool_decide_eq_false_2 by (by intros []).
  rewrite app_nil_r, Hw, Hg, Hn, softmax_list_equal by lia.
  rewrite (mix_same_shape sh) by done.
  assert (Hne : tensors ≠ []) by (intros ->; cbn in *; lia).
  rewrite (mixture_data_uniform sh) by done.
  unfold mixture_shape. destruct tensors as [|t ts]; [done|]. done.
Qed.

Lemma forward_matched_same_shape {F : Type} {FS : Scalar F}
    (m : ScalarMix F) (ts : list (Tensor F)) (sh : list nat)
    (lg : list LogRecord) :
  module_ok m -> 1 <= mixture_size m ->
  Z.of_nat (length ts) = mixture_size m ->
  sh ≠ [] -> Forall (shaped sh) ts ->
  forward ts (mkEnv m lg)
  = Returns
      (mkTensor sh (mixture_data (softmax_list (weights m)) (scale m) ts))
      (mkEnv m lg).
Proof.
  intros Hok Hsize Hlen Hsh Hts.
  assert (Hs : length (softmax_list (weights m)) = length ts).
  { rewrite length_softmax_list, length_weights by done. lia. }
  rewrite forward_eq by done.
  unfold mismatch_record. rewrite bool_decide_eq_false_2 by (by intros []).
  rewrite app_nil_r, (mix_same_shape sh) by done.
  unfold mixture_shape.
  destruct (softmax_list (weights m)) as [|w s], ts as [|t ts];
    cbn in *; try done; lia.
Qed.

Lemma fresh_forward_real_mean (n : Z) (trainable : bool)
    (tensors : list (Tensor R)) (sh : list nat) (lg : list LogRecord) :
  1 <= n -> Z.of_nat (length tensors) = n ->
  sh ≠ [] -> Forall (shaped sh) tensors ->
  forward tensors (mkEnv (fresh n trainable) lg)
  = Returns (arithmetic_mean sh tensors) (mkEnv (fresh n trainable) lg).
Proof.
  intros Hn Hlen Hsh Hts.
  apply (equal_weights_forward_is_mean _ (of_Z 0)); try done.
  - apply fresh_ok.
  - apply weights_fresh.
Qed.

(** ** Equal weights in any arithmetic, and in binary32 *)

Lemma softmax_list_replicate {F : Type} {FS : Scalar F} (n : nat) (w : F) :
  (1 <= n)%nat ->
  softmax_list (replicate n w) = replicate n (uniform_weight n w).
Proof.
  intros Hn. destruct n as [|k]; [lia|].
  unfold uniform_weight. cbn [pred].
  change (replicate (S k) w) with (w :: replicate k w) at 1.
  unfold softmax_list.
  change (w :: replicate k w) with (replicate (S k) w).
  by rewrite !fmap_replicate.
Qed.

(** The fresh module gives every tensor the weight [uniform_weight]. *)
Lemma fresh_forward_uniform {F : Type} {FS : Scalar F} (n : Z)
    (trainable : bool) (tensors : list (Tensor F)) (sh : list nat)
    (lg : list LogRecord) :
  1 <= n -> Z.of_nat (length tensors) = n ->
  sh ≠ [] -> Forall (shaped sh) tensors ->
  softmax_list (weights (fresh n trainable))
  = replicate (Z.to_nat n) (uniform_weight (Z.to_nat n) (of_Z 0))
  /\ forward tensors (mkEnv (fresh n trainable) lg)
     = Returns
         (mkTensor sh
            (mixture_data
               (replicate (Z.to_nat n) (uniform_weight (Z.to_nat n) (of_Z 0)))
               (of_Z 1) tensors))
         (mkEnv (fresh n trainable) lg).
Proof.
  intros Hn Hlen Hsh Hts.
  assert (Hs : softmax_list (weights (fresh n trainable))
               = replicate (Z.to_nat n)
                   (uniform_weight (Z.to_nat n) (of_Z 0))).
  { rewrite weights_fresh. apply softmax_list_replicate. lia. }
  split; [exact Hs|].
  rewrite (forward_matched_same_shape _ _ sh); try done.
  - by rewrite Hs.
  - apply fresh_ok.
Qed.

Lemma foldl_max32_replicate (k : nat) (z : float32) :
  max32 z z = z -> foldl max32 z (replicate k z) = z.
Proof.
  intros Hz. induction k as [|k IH]; [done|].
  cbn [replicate foldl]. by rewrite Hz.
Qed.

(** In binary32 the common weight is the rounded quotient of 1 by the
    rounded sum [0 + 1 + ... + 1]. *)
Lemma uniform_weight_binary32 (exp32 : float32 -> float32) (n : nat) :
  exp32 (binary32 0) = binary32 1 ->
  uniform_weight (FS := binary32_scalar exp32) n (binary32 0)
  = SpecFloat.SFdiv 24 128 (binary32 1)
      (foldl (SpecFloat.SFadd 24 128) (binary32 0)
         (replicate n (binary32 1))).
Proof.
  intros Hexp. unfold uniform_weight.
  cbn [fmax fsub fexp fdiv fadd of_Z binary32_scalar].
  rewrite foldl_max32_replicate by reflexivity.
  change (SpecFloat.SFsub 24 128 (binary32 0) (binary32 0))
    with (binary32 0).
  by rewrite Hexp.
Qed.

Lemma one_two_three_binary32 (exp32 : float32 -> float32)
    (lg : list LogRecord) :
  exp32 (binary32 0) = binary32 1 ->
  let FS := binary32_scalar exp32 in
  forward one_two_three (mkEnv (fresh 3 false) lg)
  = Returns (full [2; 2]%nat (binary32 2)) (mkEnv (fresh 3 false) lg).
Proof.
  intros Hexp FS.
  assert (Hts : Forall (shaped [2; 2]%nat) one_two_three)
    by (by repeat constructor).
  destruct (fresh_forward_uniform (FS := FS) 3 false one_two_three
              [2; 2]%nat lg ltac:(lia) eq_refl ltac:(discriminate) Hts)
    as [_ ->].
  change (Z.to_nat 3) with 3%nat. subst FS.
  cbn [of_Z binary32_scalar].
  rewrite uniform_weight_binary32 by done.
  vm_compute. reflexivity.
Qed.

Lemma sevens_binary32 : sevens_rounded.
Proof.
  intros exp32 Hexp FS lg.
  assert (Hts : Forall (shaped [2; 2]%nat) sevens)
    by (by repeat constructor).
  destruct (fresh_forward_uniform (FS := FS) 3 false sevens
              [2; 2]%nat lg ltac:(lia) eq_refl ltac:(discriminate) Hts)
    as [_ ->].
  change (Z.to_nat 3) with 3%nat. subst FS.
  cbn [of_Z binary32_scalar].
  rewrite uniform_weight_binary32 by done.
  vm_compute. reflexivity.
Qed.


Lemma two_tensors_shaped : Forall (shaped [2%nat]) two_tensors.
Proof. by repeat constructor. Qed.

Lemma ScalarMix_init_parameters_witness :
  exists m : ScalarMix R,
    ScalarMix_init 3 true = Ok m
    /\ mixture_size m = 3
    /\ length (scalar_parameters m) = 3%nat
    /\ requires_grad (gamma m) = true.
Proof.
  destruct (ScalarMix_init_parameters (F := R) 3 true)
    as (m & Hinit & Hsize & Hlen & _ & _ & Hflag & _).
  exists m. repeat split; assumption.
Defined.

Lemma forward_is_softmax_weighted_sum_witness :
  module_ok (fresh 2 false : ScalarMix R)
  /\ 1 <= mixture_size (fresh 2 false : ScalarMix R)
  /\ Z.of_nat (length two_tensors) = mixture_size (fresh 2 false : ScalarMix R)
  /\ forward two_tensors (mkEnv (fresh 2 false) [])
     = Returns
         (mkTensor [2%nat]
            (mixture_data (softmax_list (weights (fresh 2 false)))
               (scale (fresh 2 false)) two_tensors))
         (mkEnv (fresh 2 false) []).
Proof.
  split; [apply fresh_ok|]. split; [cbn; lia|]. split; [reflexivity|].
  refine (proj2 (forward_is_softmax_weighted_sum (fresh 2 false) two_tensors
                   [] (fresh_ok 2 false) _ eq_refl)
                [2%nat] _ two_tensors_shaped).
  - cbn. lia.
  - discriminate.
Defined.

Lemma forward_tolerates_count_mismatch_witness :
  module_ok (fresh 3 false : ScalarMix R)
  /\ 1 <= mixture_size (fresh 3 false : ScalarMix R)
  /\ Z.of_nat (length two_tensors) ≠ mixture_size (fresh 3 false : ScalarMix R)
  /\ forward two_tensors (mkEnv (fresh 3 false) [])
     = Returns
         (mkTensor [2%nat]
            (mixture_data (softmax_list (weights (fresh 3 false)))
               (scale (fresh 3 false)) two_tensors))
         (mkEnv (fresh 3 false)
            [mkLogRecord ERROR
               "2 tensors were passed, but the module was initialized to mix 3 tensors."]).
Proof.
  split; [apply fresh_ok|]. split; [cbn; lia|]. split; [cbn; lia|].
  refine (proj2 (forward_tolerates_count_mismatch (fresh 3 false) two_tensors
                   [] (fresh_ok 3 false) _ _)
                [2%nat] _ two_tensors_shaped).
  - cbn. lia.
  - cbn. lia.
  - discriminate.
Defined.



(** ** Embeddings: the completeness check *)

Section EmbedFacts.
Context {V : Type}.
Implicit Types (e : Embeddings V) (w : World V).

Lemma everything_embedded_all_carry e data_points w :
  all_carry (name e) data_points w ->
  _everything_embedded e data_points w = Returns true w.
Proof.
  induction 1 as [|l ls (d & Hd & Hin) _ IH]; [done|].
  cbn [_everything_embedded]. unfold mbind, Py_bind, get_embeddings.
  rewrite Hd. rewrite bool_decide_eq_false_2 by (by intros []).
  exact IH.
Qed.

(** The check reads the data points and writes nothing. On data points
    it returns. *)
Lemma everything_embedded_returns e data_points w :
  are_data_points data_points w ->
  exists b, _everything_embedded e data_points w = Returns b w.
Proof.
  induction 1 as [|l ls [d Hd] _ IH]; [by exists true|].
  cbn [_everything_embedded]. unfold mbind, Py_bind, get_embeddings.
  rewrite Hd. case_bool_decide; [by exists false | exact IH].
Qed.

Lemma everything_embedded_state e data_points w :
  final_state (_everything_embedded e data_points w) = w.
Proof.
  induction data_points as [|l ls IH]; [done|].
  cbn [_everything_embedded]. unfold mbind, Py_bind, get_embeddings.
  destruct (heap w !! l) as [d|]; [|done].
  case_bool_decide; [done | exact IH].
Qed.

Lemma all_carry_data_points (nm : string) data_points w :
  all_carry nm data_points w -> are_data_points data_points w.
Proof.
  intros Hall. eapply Forall_impl; [exact Hall|].
  intros l (d & Hd & _). by exists d.
Qed.

(** [embed] under the static regime when nothing is missing. *)
Lemma embed_static_noop e arg w :
  static_embeddings e = true -> all_carry (name e) (as_list arg) w ->
  embed e arg w = Returns (as_list arg) w.
Proof.
  intros Hs Hall. unfold embed, mbind, Py_bind.
  rewrite everything_embedded_all_carry by done.
  by rewrite Hs.
Qed.

(** [embed] when the embedding is not static. *)
Lemma embed_dynamic e arg w :
  static_embeddings e = false -> are_data_points (as_list arg) w ->
  embed e arg w
  = (call_hook e (as_list arg);; mret (as_list arg)) w.
Proof.
  intros Hs Hdp. unfold embed. unfold mbind at 1, Py_bind at 1.
  destruct (everything_embedded_returns e _ w Hdp) as [b ->].
  by rewrite Hs, orb_true_r.
Qed.

Lemma call_hook_calls e data_points w :
  hook_calls (final_state (call_hook e data_points w))
  = hook_calls w ++ [data_points].
Proof.
  unfold call_hook.
  by destruct (_add_embeddings_internal e data_points (heap w)).
Qed.
End EmbedFacts.

(** ** Embeddings: the claims *)

Section EmbedClaims.
Context {V : Type}.
Implicit Types (e : Embeddings V) (w : World V).

(** C2. With [static_embeddings] true and a vector under [name] in
    every data point passed, [embed] returns its data points and leaves
    the world as it was: no call of the hook is recorded and every data
    point keeps its vector map; and so does any number of calls in a
    row. *)
Theorem embed_static_is_noop e (arg : embed_arg) w :
  static_embeddings e = true -> all_carry (name e) (as_list arg) w ->
  embed e arg w = Returns (as_list arg) w
  /\ hook_calls (final_state (embed e arg w)) = hook_calls w
  /\ heap (final_state (embed e arg w)) = heap w
  /\ forall k, embed_times k e arg w = Returns tt w.
Proof.
  intros Hs Hall. rewrite embed_static_noop by done.
  repeat split. intros k. induction k as [|k IH]; [done|].
  cbn [embed_times]. unfold mbind, Py_bind.
  by rewrite embed_static_noop.
Qed.

(** C3. With [static_embeddings] false, every call of [embed] on data
    points calls the hook, exactly once and with the data points
    passed, whether or not they carry a vector under [name] and whether
    or not the hook then raises; in particular for [embed([d])]. *)
Theorem embed_dynamic_calls_hook e (arg : embed_arg) w :
  static_embeddings e = false -> are_data_points (as_list arg) w ->
  hook_calls (final_state (embed e arg w))
  = hook_calls w ++ [as_list arg].
Proof.
  intros Hs Hdp. rewrite embed_dynamic by done.
  unfold mbind, Py_bind.
  pose proof (call_hook_calls e (as_list arg) w) as Hcalls.
  by destruct (call_hook e (as_list arg) w).
Qed.

(** C7. Whenever [embed] returns, it returns the list it was given, or
    the one-element list of the single data point it was given: the
    same objects in the same order. It does return when its argument
    holds data points and the hook, if called, returns. *)
Theorem embed_returns_argument e (arg : embed_arg) w :
  (forall r w', embed e arg w = Returns r w' -> r = as_list arg)
  /\ (forall d, as_list (One d) = [d])
  /\ (forall l, as_list (Many l) = l)
  /\ (are_data_points (as_list arg) w ->
      (exists h',
          _add_embeddings_internal e (as_list arg) (heap w)
          = Returns tt h') ->
      exists w', embed e arg w = Returns (as_list arg) w').
Proof.
  split; [|split; [done|split; [done|]]].
  - intros r w'. unfold embed, mbind, Py_bind.
    destruct (_everything_embedded e (as_list arg) w) as [b w1|]; [|done].
    destruct (negb b || negb (static_embeddings e)).
    + destruct (call_hook e (as_list arg) w1); [|done].
      unfold mret, Py_ret. congruence.
    + unfold mret, Py_ret. congruence.
  - intros Hdp [h' Hhook]. unfold embed, mbind, Py_bind.
    destruct (everything_embedded_returns e _ w Hdp) as [b ->].
    destruct (negb b || negb (static_embeddings e)).
    + unfold call_hook. rewrite Hhook. by eexists.
    + by eexists.
Qed.

(** C10. The completeness check holds of the empty sequence, so a
    static embedding given the empty list calls no hook and returns the
    empty list. *)
Theorem embed_empty_static e w :
  _everything_embedded e [] w = Returns true w
  /\ (static_embeddings e = true ->
      embed e (Many []) w = Returns [] w
      /\ hook_calls (final_state (embed e (Many []) w)) = hook_calls w).
Proof.
  split; [done|]. intros Hs.
  unfold embed, mbind, Py_bind. cbn. by rewrite Hs.
Qed.
End EmbedClaims.

Lemma glove_carried :
  all_carry "glove" [1%positive] two_points.
Proof.
  constructor; [|constructor].
  exists (mkDataPoint {["glove" := 7%nat]}). split; [done|].
  cbn. set_solver.
Qed.

Lemma two_points_are_data_points :
  are_data_points [2%positive; 1%positive] two_points.
Proof. repeat constructor; by eexists. Qed.

Lemma embed_static_is_noop_witness :
  static_embeddings (glove true) = true
  /\ all_carry (name (glove true)) (as_list (Many [1%positive])) two_points
  /\ embed (glove true) (Many [1%positive]) two_points
     = Returns [1%positive] two_points.
Proof.
  split; [reflexivity|]. split; [exact glove_carried|].
  exact (proj1 (embed_static_is_noop (glove true) (Many [1%positive])
                  two_points eq_refl glove_carried)).
Defined.

Lemma embed_dynamic_calls_hook_witness :
  static_embeddings (glove false) = false
  /\ are_data_points (as_list (Many [2%positive; 1%positive])) two_points
  /\ hook_calls (final_state
                   (embed (glove false) (Many [2%positive; 1%positive])
                      two_points))
     = [[2%positive; 1%positive]].
Proof.
  split; [reflexivity|]. split; [exact two_points_are_data_points|].
  exact (embed_dynamic_calls_hook (glove false)
           (Many [2%positive; 1%positive]) two_points eq_refl
           two_points_are_data_points).
Defined.

Lemma embed_returns_argument_witness :
  embed (glove false) (One 2%positive) two_points
  = Returns [2%positive]
      (mkWorld
         (<[1%positive := mkDataPoint {["glove" := 7%nat]}]>
            (<[2%positive := mkDataPoint {["glove" := 7%nat]}]> ∅))
         [[2%positive]])
  /\ [2%positive] = as_list (One 2%positive).
Proof.
  assert (Hrun : embed (glove false) (One 2%positive) two_points
    = Returns [2%positive]
      (mkWorld
         (<[1%positive := mkDataPoint {["glove" := 7%nat]}]>
            (<[2%positive := mkDataPoint {["glove" := 7%nat]}]> ∅))
         [[2%positive]])).
  { vm_compute. reflexivity. }
  split; [exact Hrun|].
  exact (proj1 (embed_returns_argument (glove false) (One 2%positive)
                  two_points) _ _ Hrun).
Defined.

Lemma embed_empty_static_witness :
  static_embeddings (glove true) = true
  /\ embed (glove true) (Many []) two_points = Returns [] two_points.
Proof.
  split; [reflexivity|].
  exact (proj1 (proj2 (embed_empty_static (glove true) two_points) eq_refl)).
Defined.

(** ** The constructor of [Embeddings] *)

Section EmbeddingsInitClaims.
Variable module_init : attributes -> attributes.
(** The attributes that the constructor of [torch.nn.Module] writes. *)
Variable module_attrs : gset string.
Hypothesis module_init_frame :
  forall (self : attributes) (k : string),
    k ∉ module_attrs -> module_init self !! k = self !! k.
Hypothesis name_not_module_attr : "name" ∉ module_attrs.
Hypothesis static_not_module_attr : "static_embeddings" ∉ module_attrs.

(** C9. After [Embeddings.__init__], an instance that had no [name] has
    [name = "unnamed_embedding"], one that had no [static_embeddings]
    has [static_embeddings = False], and every attribute that was set
    before the call, [name] and [static_embeddings] among them, keeps
    its value, the attributes written by the constructor of
    [torch.nn.Module] apart. *)
Theorem Embeddings_init_defaults (self : attributes) :
  let self' := Embeddings_init module_init self in
  (hasattr self "name" = false ->
     self' !! "name" = Some (PyStr "unnamed_embedding"))
  /\ (hasattr self "static_embeddings" = false ->
        self' !! "static_embeddings" = Some (PyBool false))
  /\ (forall k v, k ∉ module_attrs -> self !! k = Some v ->
        self' !! k = Some v).
Proof.
  cbv zeta. unfold Embeddings_init, hasattr.
  split; [|split].
  - intros Hn. rewrite Hn. cbn [negb].
    rewrite module_init_frame by done.
    case_match; [by rewrite lookup_insert_ne, lookup_insert_eq|].
    by rewrite lookup_insert_eq.
  - intros Hs. rewrite module_init_frame by done.
    set (a := if negb (bool_decide (is_Some (self !! "name")))
              then <["name" := PyStr "unnamed_embedding"]> self else self).
    assert (Ha : a !! "static_embeddings" = self !! "static_embeddings").
    { unfold a. case_match; [by rewrite lookup_insert_ne|done]. }
    rewrite Ha, Hs. cbn [negb]. by rewrite lookup_insert_eq.
  - intros k v Hk Hv. rewrite module_init_frame by done.
    assert (Hset : forall (a : attributes) k' x,
               a !! k = Some v ->
               (if negb (bool_decide (is_Some (a !! k')))
                then <[k' := x]> a else a) !! k = Some v).
    { intros a k' x Ha. case_bool_decide as Hk'; cbn [negb]; [done|].
      rewrite lookup_insert_ne; [done|].
      intros <-. apply Hk'. by rewrite Ha. }
    apply Hset. by apply Hset.
Qed.
End EmbeddingsInitClaims.

Lemma set_training_frame (self : attributes) (k : string) :
  k ∉ ({["training"]} : gset string) -> set_training self !! k = self !! k.
Proof.
  intros Hk. unfold set_training. apply lookup_insert_ne. set_solver.
Qed.

Lemma Embeddings_init_defaults_witness :
  hasattr ({["name" := PyStr "glove"]} : attributes) "static_embeddings"
  = false
  /\ Embeddings_init set_training {["name" := PyStr "glove"]}
       !! "static_embeddings" = Some (PyBool false)
  /\ Embeddings_init set_training {["name" := PyStr "glove"]}
       !! "name" = Some (PyStr "glove").
Proof.
  pose proof (Embeddings_init_defaults set_training {["training"]}
                set_training_frame ltac:(set_solver) ltac:(set_solver)
                {["name" := PyStr "glove"]}) as (_ & Hstatic & Hkept).
  split; [reflexivity|]. split.
  - apply Hstatic. reflexivity.
  - apply Hkept; [set_solver | reflexivity].
Defined.

(** ** The constructor-introspection helper *)

Lemma dict_get_class (locals : dict) (class_name : string)
    (params : list string) :
  dict_get locals "__class__" = PyClass class_name params ->
  ("__class__", PyClass class_name params) ∈ locals.
Proof.
  unfold dict_get.
  destruct (list_find _ locals) as [[i [k v]]|] eqn:Hfind; [|done].
  intros ->. apply list_find_Some in Hfind as (Hi & Hk & _).
  cbn in Hk. subst k. by eapply list_elem_of_lookup_2.
Qed.

Lemma get_instance_parameters_eq (locals : dict) (class_name : string)
    (params : list string) :
  dict_get locals "__class__" = PyClass class_name params ->
  "self" ∈ params ->
  get_instance_parameters locals = Ok (filter (kept params) locals).
Proof.
  intros Hcls Hself. unfold get_instance_parameters, set_remove.
  rewrite Hcls. cbn [init_signature].
  rewrite bool_decide_eq_true_2 by (by apply elem_of_list_to_set).
  cbn [mbind result_bind mret result_ret]. f_equal.
  apply list_filter_iff. intros [k v]. unfold kept. cbn [fst].
  rewrite elem_of_union, elem_of_difference, elem_of_list_to_set,
    !elem_of_singleton.
  tauto.
Qed.

Lemma parameter_keys_filter (params : list string) (locals : dict) :
  parameter_keys (filter (kept params) locals)
  = filter (fun k => k ∈ params /\ k ≠ "self") (parameter_keys locals).
Proof.
  unfold parameter_keys. induction locals as [|[k v] locals IH]; [done|].
  rewrite filter_cons. cbn [fmap list_fmap fst].
  destruct (decide (kept params (k, v))) as [Hk|Hk]; unfold kept in Hk;
    cbn [fst] in Hk.
  - cbn [fmap list_fmap fst]. rewrite !filter_cons.
    destruct (decide (k ≠ "__class__")) as [Hc|Hc].
    + rewrite filter_cons, decide_True by tauto. by rewrite IH.
    + exact IH.
  - rewrite filter_cons.
    destruct (decide (k ≠ "__class__")) as [Hc|Hc].
    + rewrite filter_cons, decide_False by tauto. exact IH.
    + exact IH.
Qed.

(** C8, as amended. For a locals mapping that holds a class under
    ["__class__"], the first parameter of whose constructor is [self],
    [get_instance_parameters] returns the entries of the mapping whose key
    is ["__class__"] or a declared parameter other than [self], the class
    entry among them, with the values they have in the mapping and in the
    order of the mapping; when
    the mapping lists the declared parameters in the order of the
    signature, so does the result. *)
Theorem get_instance_parameters_restricts (locals : dict)
    (class_name : string) (params : list string) :
  dict_get locals "__class__" = PyClass class_name params ->
  "self" ∈ params ->
  exists r,
    get_instance_parameters locals = Ok r
    /\ (forall k v, (k, v) ∈ r <->
          (k, v) ∈ locals
          /\ (k = "__class__" \/ (k ∈ params /\ k ≠ "self")))
    /\ ("__class__", PyClass class_name params) ∈ r
    /\ sublist r locals
    /\ (filter (fun k => k ∈ params /\ k ≠ "self") (parameter_keys locals)
        = declared_parameters params ->
        parameter_keys r = declared_parameters params).
Proof.
  intros Hcls Hself. exists (filter (kept params) locals).
  split; [by eapply get_instance_parameters_eq|].
  split; [|split; [|split]].
  - intros k v. rewrite list_elem_of_filter. unfold kept. cbn [fst]. tauto.
  - apply list_elem_of_filter. split; [by left|by eapply dict_get_class].
  - apply sublist_filter.
  - intros Horder. by rewrite parameter_keys_filter.
Qed.

Lemma get_instance_parameters_restricts_witness :
  dict_get plain_locals "__class__" = plain_class
  /\ "self" ∈ ["self"; "a"; "b"]
  /\ exists r,
       get_instance_parameters plain_locals = Ok r
       /\ parameter_keys r = ["a"; "b"].
Proof.
  split; [reflexivity|]. split; [set_solver|].
  destruct (get_instance_parameters_restricts plain_locals "E"
              ["self"; "a"; "b"] eq_refl ltac:(set_solver))
    as (r & Hr & _ & _ & _ & Horder).
  exists r. split; [exact Hr|]. apply Horder. reflexivity.
Defined.

(** C8, as stated, fails on the constructor [def __init__(self, a, *args,
    b)]: the mapping returned keeps the order of [locals()], where [b]
    comes before [args], while the signature has [args] before [b]. *)
Lemma signature_order_counterexample :
  get_instance_parameters varargs_locals
  = Ok [("a", PyInt 1); ("b", PyInt 2); ("args", PyObject 2);
        ("__class__", varargs_class)]
  /\ ~ reflects_signature varargs_locals.
Proof.
  assert (Hrun : get_instance_parameters varargs_locals
    = Ok [("a", PyInt 1); ("b", PyInt 2); ("args", PyObject 2);
          ("__class__", varargs_class)]).
  { rewrite (get_instance_parameters_eq _ "E" ["self"; "a"; "args"; "b"]);
      [|reflexivity|set_solver].
    reflexivity. }
  split; [exact Hrun|].
  intros Hclaim.
  specialize (Hclaim "E" ["self"; "a"; "args"; "b"] _ eq_refl Hrun).
  vm_compute in Hclaim. discriminate Hclaim.
Qed.

(** * Further properties *)

(** ** ScalarMix: edge cases of [forward] *)

Section ForwardEdges.
Context {F : Type} {FS : Scalar F}.

Lemma result_of_lift {S A} (r : result A) (s : S) :
  result_of (lift r s) = r.
Proof. by destruct r. Qed.

Lemma zip_take_longer {A B} (l : list A) (k : list B) :
  zip l (take (length l) k) = zip l k.
Proof.
  revert k. induction l as [|a l IH]; intros [|b k]; try done.
  cbn. by rewrite IH.
Qed.

(** X1. When more tensors are passed than the module mixes, the tensors
    beyond the first [mixture_size] play no part: the call returns the
    same tensor, or raises the same exception, as the call on the first
    [mixture_size] tensors. *)
Theorem forward_ignores_extra_tensors (m : ScalarMix F)
    (tensors : list (Tensor F)) (lg : list LogRecord) :
  module_ok m -> 1 <= mixture_size m ->
  mixture_size m <= Z.of_nat (length tensors) ->
  result_of (forward tensors (mkEnv m lg))
  = result_of (forward (take (Z.to_nat (mixture_size m)) tensors)
                 (mkEnv m lg)).
Proof.
  intros Hok Hsize Hlen. rewrite !forward_eq, !result_of_lift by done.
  unfold mix.
  rewrite <- (length_weights m Hok), <- (length_softmax_list (weights m)).
  by rewrite zip_take_longer.
Qed.

(** X2. Given no tensor at all, [forward] does not raise: it reports the
    mismatch and returns the one-entry tensor [gamma * 0], the product of
    [gamma] with the integer that Python's [sum] gives for an empty
    list. *)
Theorem forward_empty_list (m : ScalarMix F) (lg : list LogRecord) :
  module_ok m -> 1 <= mixture_size m ->
  forward [] (mkEnv m lg)
  = Returns (mkTensor [1%nat] [fmul (scale m) (of_Z 0)])
      (mkEnv m (lg ++ [mkLogRecord ERROR
                         (mismatch_message 0 (mixture_size m))])).
Proof.
  intros Hok Hsize. rewrite forward_eq by done.
  unfold mismatch_record. rewrite bool_decide_eq_true_2 by (cbn; lia).
  unfold mix. by destruct (softmax_list (weights m)).
Qed.

(** X3. A module built with [mixture_size <= 0] has no scalar weight, and
    every call of its [forward] raises the error of [torch.cat] on an
    empty list, after the mismatch, if any, is reported. *)
Theorem forward_without_weights (n : Z) (trainable : bool) :
  n <= 0 ->
  exists m : ScalarMix F,
    ScalarMix_init n trainable = Ok m
    /\ scalar_parameters m = []
    /\ forall tensors lg,
         forward tensors (mkEnv m lg)
         = Raises
             (RuntimeError
                "torch.cat(): expected a non-empty list of Tensors")
             (mkEnv m (lg ++ mismatch_record (length tensors) n)).
Proof.
  intros Hn. exists (fresh n trainable).
  split; [apply ScalarMix_init_eq|].
  assert (Hnil : scalar_parameters (fresh n trainable) = [] :> list _).
  { cbn. by replace (Z.to_nat n) with 0%nat by lia. }
  split; [exact Hnil|]. intros tensors lg.
  unfold forward, mismatch_record.
  unfold mbind at 1; unfold Py_bind at 1; unfold gets at 1.
  cbn [self]. rewrite Hnil.
  unfold mbind at 1; unfold Py_bind at 1.
  cbn [mixture_size fresh].
  case_bool_decide.
  - unfold log_error, modify. cbn [self log]. done.
  - unfold mret at 1, Py_ret. by rewrite app_nil_r.
Qed.

(** X4. Whatever the module and the tensors, and whether the call
    returns or raises, [forward] keeps the records already sent to the
    logger and adds the mismatch record exactly when the number of
    tensors differs from [mixture_size]. *)
Theorem forward_log (tensors : list (Tensor F)) (e : Env F) :
  log (final_state (forward tensors e))
  = log e ++ mismatch_record (length tensors) (mixture_size (self e)).
Proof.
  unfold forward, mismatch_record, mbind, Py_bind, gets, lift, log_error,
    modify, mret, Py_ret.
  destruct e as [m lg]. cbn [self log].
  case_bool_decide; cbn [self log];
    repeat (match goal with
            | |- context [match ?r with Ok _ => _ | Err _ => _ end] =>
                destruct r; cbn [log final_state]
            end); by rewrite ?app_nil_r.
Qed.
End ForwardEdges.

Lemma forward_ignores_extra_tensors_witness :
  module_ok (fresh 1 false : ScalarMix R)
  /\ 1 <= mixture_size (fresh 1 false : ScalarMix R)
  /\ mixture_size (fresh 1 false : ScalarMix R)
     <= Z.of_nat (length two_tensors)
  /\ result_of (forward two_tensors (mkEnv (fresh 1 false) []))
     = result_of (forward [full [2%nat] 1%R] (mkEnv (fresh 1 false) [])).
Proof.
  split; [apply fresh_ok|]. split; [cbn; lia|]. split; [cbn; lia|].
  refine (forward_ignores_extra_tensors (fresh 1 false) two_tensors []
            (fresh_ok 1 false) _ _); cbn; lia.
Defined.

Lemma forward_empty_list_witness :
  module_ok (fresh 2 false : ScalarMix R)
  /\ 1 <= mixture_size (fresh 2 false : ScalarMix R)
  /\ forward [] (mkEnv (fresh 2 false : ScalarMix R) [])
     = Returns (mkTensor [1%nat] [(1 * 0)%R])
         (mkEnv (fresh 2 false)
            [mkLogRecord ERROR
               "0 tensors were passed, but the module was initialized to mix 2 tensors."]).
Proof.
  split; [apply fresh_ok|]. split; [cbn; lia|].
  refine (forward_empty_list (fresh 2 false) [] (fresh_ok 2 false) _).
  cbn. lia.
Defined.

Lemma forward_without_weights_witness :
  -1 <= 0
  /\ exists m : ScalarMix R,
       ScalarMix_init (-1) false = Ok m
       /\ forward two_tensors (mkEnv m [])
          = Raises
              (RuntimeError
                 "torch.cat(): expected a non-empty list of Tensors")
              (mkEnv m
                 [mkLogRecord ERROR
                    "2 tensors were passed, but the module was initialized to mix -1 tensors."]).
Proof.
  split; [lia|].
  destruct (forward_without_weights (F := R) (-1) false ltac:(lia))
    as (m & Hinit & _ & Hraise).
  exists m. split; [exact Hinit|]. exact (Hraise two_tensors []).
Defined.

(** X5. With [mixture_size = 1], whenever the arithmetic makes the one
    normalised weight equal to 1 and leaves the entries [x] of the tensor
    unchanged by [1 * x] and [x + 0], [forward([t])] is [gamma * t],
    entry by entry. *)
Theorem forward_single_tensor {F : Type} {FS : Scalar F} (m : ScalarMix F)
    (t : Tensor F) (sh : list nat) (lg : list LogRecord) :
  module_ok m -> mixture_size m = 1 -> sh ≠ [] -> shaped sh t ->
  softmax_list (weights m) = [of_Z 1] ->
  Forall (fun x => fmul (of_Z 1) x = x /\ fadd x (of_Z 0) = x) (data t) ->
  forward [t] (mkEnv m lg)
  = Returns (mkTensor sh (fmul (scale m) <$> data t)) (mkEnv m lg).
Proof.
  intros Hok Hsize Hsh Ht Hw Hlaws.
  assert (Hts : Forall (shaped sh) [t]) by (constructor; [done|constructor]).
  rewrite (forward_matched_same_shape m [t] sh lg Hok ltac:(lia)
             ltac:(cbn; lia) Hsh Hts).
  rewrite Hw. unfold mixture_data. cbn [zip_with add_all].
  do 3 f_equal. rewrite <- list_fmap_compose.
  rewrite <- (list_fmap_id (data t)) at 2.
  apply Forall_fmap_ext. eapply Forall_impl; [exact Hlaws|].
  intros x [Hmul Hadd]. cbn. by rewrite Hmul, Hadd.
Qed.

Lemma forward_single_tensor_witness :
  module_ok (FS := binary32_scalar exp_at_zero)
    (fresh (FS := binary32_scalar exp_at_zero) 1 false)
  /\ shaped [2%nat] (full [2%nat] (binary32 7))
  /\ softmax_list (FS := binary32_scalar exp_at_zero)
       (weights (FS := binary32_scalar exp_at_zero)
          (fresh (FS := binary32_scalar exp_at_zero) 1 false))
     = [binary32 1]
  /\ forward (FS := binary32_scalar exp_at_zero)
       [full [2%nat] (binary32 7)]
       (mkEnv (fresh (FS := binary32_scalar exp_at_zero) 1 false) [])
     = Returns (full [2%nat] (binary32 7))
         (mkEnv (fresh (FS := binary32_scalar exp_at_zero) 1 false) []).
Proof.
  assert (Hsh : shaped [2%nat] (full [2%nat] (binary32 7))) by (by split).
  split; [apply fresh_ok|]. split; [exact Hsh|].
  split; [vm_compute; reflexivity|].
  refine (forward_single_tensor (FS := binary32_scalar exp_at_zero)
            (fresh (FS := binary32_scalar exp_at_zero) 1 false)
            (full [2%nat] (binary32 7)) [2%nat] []
            (fresh_ok 1 false) eq_refl _ Hsh _ _).
  - discriminate.
  - vm_compute. reflexivity.
  - repeat constructor; vm_compute; reflexivity.
Defined.

(** ** ScalarMix over the real numbers: the scale *)

Lemma with_gamma_ok {F : Type} {FS : Scalar F} (m : ScalarMix F) (g : F) :
  module_ok m ->
  module_ok (with_gamma m g)
  /\ weights (with_gamma m g) = weights m
  /\ scale (with_gamma m g) = g.
Proof. intros [Hc Hp Hg]. by repeat split. Qed.

Lemma mixture_data_gamma (s : list R) (g : R) (ts : list (Tensor R)) :
  mixture_data s g ts = Rmult g <$> mixture_data s 1%R ts.
Proof.
  unfold mixture_data.
  destruct (zip_with (fun w t => fmul w <$> data t) s ts) as [|p rest].
  - cbn. f_equal. lra.
  - rewrite <- list_fmap_compose. apply list_fmap_ext.
    intros _ x _. cbn. lra.
Qed.

(** X7. Over the real numbers and on tensors of one shape, the result of
    [forward] is [gamma] times, entry by entry, the result of the same
    module with [gamma = 1]: [gamma] only scales. *)
Theorem forward_linear_in_gamma (m : ScalarMix R)
    (tensors : list (Tensor R)) (sh : list nat) (lg : list LogRecord) :
  module_ok m -> 1 <= mixture_size m ->
  sh ≠ [] -> Forall (shaped sh) tensors ->
  exists out1,
    result_of (forward tensors (mkEnv (with_gamma m 1%R) lg)) = Ok out1
    /\ result_of (forward tensors (mkEnv m lg))
       = Ok (mkTensor (shape out1) (Rmult (scale m) <$> data out1)).
Proof.
  intros Hok Hsize Hsh Hts.
  destruct (with_gamma_ok m 1%R Hok) as (Hok1 & Hw1 & Hg1).
  rewrite !forward_eq, !result_of_lift, Hw1, Hg1 by done.
  rewrite !(mix_same_shape sh) by done.
  eexists. split; [done|]. cbn [shape data].
  by rewrite (mixture_data_gamma _ (scale m)).
Qed.

Lemma forward_linear_in_gamma_witness :
  module_ok (with_gamma (fresh 2 false : ScalarMix R) 5%R)
  /\ Forall (shaped [2%nat]) two_tensors
  /\ exists out1,
       result_of (forward two_tensors
                    (mkEnv (with_gamma (with_gamma (fresh 2 false) 5%R) 1%R)
                       []))
       = Ok out1
       /\ result_of (forward two_tensors
                       (mkEnv (with_gamma (fresh 2 false) 5%R) []))
          = Ok (mkTensor (shape out1) (Rmult 5 <$> data out1)).
Proof.
  pose proof (proj1 (with_gamma_ok (fresh 2 false : ScalarMix R) 5%R
                       (fresh_ok 2 false))) as Hok.
  split; [exact Hok|]. split; [exact two_tensors_shaped|].
  refine (forward_linear_in_gamma _ two_tensors [2%nat] [] Hok _ _
            two_tensors_shaped).
  - cbn. lia.
  - discriminate.
Defined.

(** ** ScalarMix: tensors of different shapes *)

Section ShapeMismatch.
Context {F : Type} {FS : Scalar F}.

Lemma pieces_any_shape (s : list F) (ts : list (Tensor F)) :
  Forall (fun t => shape t ≠ [] /\ well_shaped t) ts ->
  mapM (fun '(w, t) => tensor_mul (unit_vector w) t) (zip s ts)
  = Ok (zip_with (fun w t => mkTensor (shape t) (fmul w <$> data t)) s ts).
Proof.
  revert ts. induction s as [|w s IH]; intros [|t ts] Hts; try done.
  apply Forall_cons in Hts as [[Hsh Hwf] Hts].
  cbn [zip_with].
  change (mapM ?f (?x :: ?l)) with (y ← f x; k ← mapM f l; mret (y :: k)).
  rewrite IH by done. unfold tensor_mul, unit_vector.
  by rewrite broadcast_op_unit_l.
Qed.

(** X9. [forward] has no check of the shapes: when the first two tensors
    have shapes that cannot be broadcast together, the call raises the
    error of the tensor addition inside [sum], and nothing is logged if
    the count is right. *)
Theorem forward_shape_mismatch (m : ScalarMix F) (t1 t2 : Tensor F)
    (rest : list (Tensor F)) (lg : list LogRecord) :
  module_ok m -> 2 <= mixture_size m ->
  Forall (fun t => shape t ≠ [] /\ well_shaped t) (t1 :: t2 :: rest) ->
  broadcast_shapes (shape t1) (shape t2) = None ->
  forward (t1 :: t2 :: rest) (mkEnv m lg)
  = Raises
      (RuntimeError "The size of tensor a must match the size of tensor b")
      (mkEnv m (lg ++ mismatch_record (length (t1 :: t2 :: rest))
                        (mixture_size m))).
Proof.
  intros Hok Hsize Hts Hbc. rewrite forward_eq by (done || lia).
  assert (Hs : (2 <= length (softmax_list (weights m)))%nat)
    by (rewrite length_softmax_list, length_weights by done; lia).
  unfold mix. rewrite pieces_any_shape by done.
  destruct (softmax_list (weights m)) as [|w1 [|w2 s]]; cbn in Hs; try lia.
  apply Forall_cons in Hts as [[Hsh1 Hwf1] _].
  cbn [zip_with mbind result_bind].
  unfold py_sum. cbn [sum_from py_add]. unfold tensor_add at 1.
  rewrite broadcast_op_number_r
    by (unfold well_shaped in *; cbn; by rewrite length_fmap).
  cbn [fmap result_fmap mbind result_bind sum_from py_add shape].
  unfold tensor_add at 1, broadcast_op. cbn [shape]. rewrite Hbc.
  done.
Qed.
End ShapeMismatch.

Lemma forward_shape_mismatch_witness :
  module_ok (fresh 2 false : ScalarMix R)
  /\ 2 <= mixture_size (fresh 2 false : ScalarMix R)
  /\ broadcast_shapes [2%nat] [3%nat] = None
  /\ forward [full [2%nat] 1%R; full [3%nat] 1%R]
       (mkEnv (fresh 2 false : ScalarMix R) [])
     = Raises
         (RuntimeError "The size of tensor a must match the size of tensor b")
         (mkEnv (fresh 2 false) []).
Proof.
  split; [apply fresh_ok|]. split; [cbn; lia|]. split; [reflexivity|].
  refine (forward_shape_mismatch (fresh 2 false) (full [2%nat] 1%R)
            (full [3%nat] 1%R) [] [] (fresh_ok 2 false) _ _ eq_refl).
  - cbn. lia.
  - by repeat constructor.
Defined.

(** ** Embeddings: when the hook runs *)

Section EmbedMore.
Context {V : Type}.
Implicit Types (e : Embeddings V) (w : World V).

Lemma everything_embedded_app_carry e (pre rest : list loc) w :
  all_carry (name e) pre w ->
  _everything_embedded e (pre ++ rest) w = _everything_embedded e rest w.
Proof.
  induction 1 as [|l ls (d & Hd & Hin) _ IH]; [done|].
  cbn [app _everything_embedded]. unfold mbind, Py_bind, get_embeddings.
  rewrite Hd. rewrite bool_decide_eq_false_2 by (by intros []).
  exact IH.
Qed.

Lemma everything_embedded_spec e (data_points : list loc) w :
  are_data_points data_points w ->
  exists b,
    _everything_embedded e data_points w = Returns b w
    /\ (b = true <-> all_carry (name e) data_points w).
Proof.
  induction 1 as [|l ls [d Hd] Hls IH].
  - exists true. split; [done|]. split; [constructor|done].
  - cbn [_everything_embedded]. unfold mbind, Py_bind, get_embeddings.
    rewrite Hd. case_bool_decide as Hin.
    + exists false. split; [done|]. split; [done|].
      intros Hall. apply Forall_cons in Hall as [(d' & Hd' & Hin') _].
      rewrite Hd in Hd'. injection Hd' as <-. done.
    + destruct IH as (b & Hb & Hiff). exists b. split; [exact Hb|].
      rewrite Hiff. split.
      * intros Hall. constructor; [|done]. exists d. split; [done|].
        by destruct (decide (name e ∈ dom (_embeddings d))).
      * intros Hall. by apply Forall_cons in Hall as [_ Hall].
Qed.

(** X10. On data points, the completeness check returns, changes
    nothing, and answers [True] exactly when every one of them has a
    vector under the name of the embedding. *)
Theorem everything_embedded_iff e (data_points : list loc) w :
  are_data_points data_points w ->
  exists b,
    _everything_embedded e data_points w = Returns b w
    /\ (b = true <-> all_carry (name e) data_points w).
Proof. apply everything_embedded_spec. Qed.

(** X11. The check stops at the first data point without a vector under
    the name: what follows it in the list is not looked at, and [embed],
    static or not, then calls the hook once, with the whole list. *)
Theorem embed_missing_calls_hook e (pre rest : list loc) (l : loc)
    (d : DataPoint V) w :
  all_carry (name e) pre w ->
  heap w !! l = Some d -> name e ∉ dom (_embeddings d) ->
  _everything_embedded e (pre ++ l :: rest) w = Returns false w
  /\ hook_calls (final_state (embed e (Many (pre ++ l :: rest)) w))
     = hook_calls w ++ [pre ++ l :: rest].
Proof.
  intros Hpre Hd Hin.
  assert (Hcheck : _everything_embedded e (pre ++ l :: rest) w
                   = Returns false w).
  { rewrite everything_embedded_app_carry by done.
    cbn [_everything_embedded]. unfold mbind, Py_bind, get_embeddings.
    rewrite Hd. by rewrite bool_decide_eq_true_2. }
  split; [exact Hcheck|].
  unfold embed. cbn [as_list]. unfold mbind at 1, Py_bind at 1.
  rewrite Hcheck. cbn [negb orb]. unfold mbind, Py_bind.
  pose proof (call_hook_calls e (pre ++ l :: rest) w) as Hcalls.
  by destruct (call_hook e (pre ++ l :: rest) w).
Qed.

(** X12. When the check reaches an object that has no [_embeddings]
    before any data point without a vector, [embed] raises the
    [AttributeError] of that access: the hook is not called and nothing
    is changed. *)
Theorem embed_not_a_data_point e (pre rest : list loc) (l : loc) w :
  all_carry (name e) pre w -> heap w !! l = None ->
  embed e (Many (pre ++ l :: rest)) w
  = Raises (AttributeError "_embeddings") w.
Proof.
  intros Hpre Hl. unfold embed. cbn [as_list].
  unfold mbind at 1, Py_bind at 1.
  rewrite everything_embedded_app_carry by done.
  cbn [_everything_embedded]. unfold mbind, Py_bind, get_embeddings.
  by rewrite Hl.
Qed.

(** X13. A non-static [embed] on data points adds nothing to what the
    hook does: the data points are left as the hook left them, the list
    is returned when the hook returns, and an exception of the hook
    reaches the caller unchanged. *)
Theorem embed_dynamic_outcome e (arg : embed_arg) w :
  static_embeddings e = false -> are_data_points (as_list arg) w ->
  embed e arg w
  = match _add_embeddings_internal e (as_list arg) (heap w) with
    | Returns _ h =>
        Returns (as_list arg)
          (mkWorld h (hook_calls w ++ [as_list arg]))
    | Raises exc h =>
        Raises exc (mkWorld h (hook_calls w ++ [as_list arg]))
    end.
Proof.
  intros Hs Hdp. rewrite embed_dynamic by done.
  unfold mbind, Py_bind, call_hook.
  by destruct (_add_embeddings_internal e (as_list arg) (heap w)).
Qed.

Lemma not_all_carry_check e (data_points : list loc) w :
  are_data_points data_points w ->
  ~ all_carry (name e) data_points w ->
  _everything_embedded e data_points w = Returns false w.
Proof.
  intros Hdp Hnot.
  destruct (everything_embedded_spec e data_points w Hdp) as (b & Hb & Hiff).
  destruct b; [|done]. exfalso. apply Hnot. by apply Hiff.
Qed.

(** X14. The cache of a static embedding: when some data point has no
    vector yet and the hook stores one in every data point it is given,
    any number [k >= 1] of calls of [embed] in a row calls the hook
    exactly once, and all the data points have their vector after it. *)
Theorem embed_static_caches e (arg : embed_arg) w (k : nat) :
  static_embeddings e = true ->
  hook_stores (name e) (_add_embeddings_internal e) ->
  are_data_points (as_list arg) w ->
  ~ all_carry (name e) (as_list arg) w ->
  exists w',
    embed_times (S k) e arg w = Returns tt w'
    /\ hook_calls w' = hook_calls w ++ [as_list arg]
    /\ all_carry (name e) (as_list arg) w'.
Proof.
  intros Hs Hhook Hdp Hnot.
  destruct (Hhook (as_list arg) (heap w) Hdp) as (h' & Hrun & Hall).
  exists (mkWorld h' (hook_calls w ++ [as_list arg])).
  assert (Hfirst : embed e arg w
                   = Returns (as_list arg)
                       (mkWorld h' (hook_calls w ++ [as_list arg]))).
  { unfold embed. unfold mbind at 1, Py_bind at 1.
    rewrite not_all_carry_check by done. cbn [negb orb].
    unfold mbind, Py_bind, call_hook. by rewrite Hrun. }
  split; [|split; [done|exact Hall]].
  cbn [embed_times]. unfold mbind at 1, Py_bind at 1. rewrite Hfirst.
  clear Hfirst.
  induction k as [|k IH]; [done|].
  cbn [embed_times]. unfold mbind at 1, Py_bind at 1.
  rewrite embed_static_noop by done. exact IH.
Qed.

(** X15. The hook of the base class does nothing, so with it nothing is
    ever cached: while some data point has no vector, each of [k] calls
    of [embed] returns, calls the hook again, and leaves every data
    point as it was. *)
Theorem embed_base_hook_never_caches (nm : string) (static : bool)
    (arg : embed_arg) w (k : nat) :
  are_data_points (as_list arg) w ->
  ~ all_carry nm (as_list arg) w ->
  embed_times k (mkEmbeddings nm static base_add_embeddings_internal) arg w
  = Returns tt
      (mkWorld (heap w) (hook_calls w ++ replicate k (as_list arg))).
Proof.
  intros Hdp Hnot.
  set (e := mkEmbeddings nm static base_add_embeddings_internal).
  assert (Hstep : forall calls,
    embed e arg (mkWorld (heap w) calls)
    = Returns (as_list arg) (mkWorld (heap w) (calls ++ [as_list arg]))).
  { intros calls. unfold embed. unfold mbind at 1, Py_bind at 1.
    rewrite (not_all_carry_check e) by done. done. }
  assert (Hgen : forall calls,
    embed_times k e arg (mkWorld (heap w) calls)
    = Returns tt (mkWorld (heap w) (calls ++ replicate k (as_list arg)))).
  { induction k as [|k IH]; intros calls.
    - cbn. by rewrite app_nil_r.
    - cbn [embed_times]. unfold mbind at 1, Py_bind at 1.
      rewrite Hstep, IH. cbn [replicate].
      by rewrite <- app_assoc. }
  destruct w as [h calls]. apply Hgen.
Qed.

(** X16. For the base class, the names listed by [get_names] are the
    keys of [get_named_embeddings_dict], there is exactly one, and it
    maps to the embedding itself. *)
Theorem names_are_dict_keys e :
  dom (get_named_embeddings_dict e) = list_to_set (get_names e)
  /\ length (get_names e) = 1%nat
  /\ forall nm, nm ∈ get_names e ->
       get_named_embeddings_dict e !! nm = Some e.
Proof.
  unfold get_named_embeddings_dict, get_names. split; [|split].
  - rewrite dom_singleton_L. cbn. by rewrite union_empty_r_L.
  - done.
  - intros nm Hnm. apply list_elem_of_singleton in Hnm as ->.
    apply lookup_singleton_eq.
Qed.
End EmbedMore.

Lemma store_under_stores (nm : string) (v : nat) :
  hook_stores nm (store_under nm v).
Proof.
  intros data_points h Hdp. unfold store_under. eexists. split; [done|].
  set (step := fun (l : loc) (h' : gmap loc (DataPoint nat)) =>
                 alter (fun d => mkDataPoint (<[nm := v]> (_embeddings d)))
                   l h').
  assert (Hinv : forall (ls : list loc) (x : loc),
             is_Some (h !! x) ->
             exists d, foldr step h ls !! x = Some d
                       /\ (x ∈ ls -> nm ∈ dom (_embeddings d))).
  { induction ls as [|a ls IH]; intros x [d Hd].
    - exists d. split; [done|]. by intros ?%elem_of_nil.
    - destruct (IH x (ex_intro _ d Hd)) as (d' & Hd' & Hin).
      cbn [foldr]. unfold step at 1.
      destruct (decide (a = x)) as [->|Hne].
      + rewrite lookup_alter_eq, Hd'. eexists. split; [done|].
        intros _. cbn. rewrite dom_insert_L. set_solver.
      + rewrite lookup_alter_ne by done. exists d'. split; [done|].
        intros [?|?]%elem_of_cons; [congruence|auto]. }
  apply Forall_forall. intros x Hx.
  rewrite Forall_forall in Hdp.
  destruct (Hinv data_points x (Hdp x Hx)) as (d & Hd & Hin).
  exists d. auto.
Qed.

Lemma glove_missing :
  ~ all_carry "glove" [2%positive; 1%positive] two_points.
Proof.
  intros Hall. apply Forall_cons in Hall as [(d & Hd & Hin) _].
  assert (Hd2 : heap two_points !! 2%positive
                = Some (mkDataPoint (∅ : gmap string nat))) by reflexivity.
  rewrite Hd2 in Hd. injection Hd as <-. cbn in Hin.
  by rewrite dom_empty_L in Hin.
Qed.

Lemma everything_embedded_iff_witness :
  are_data_points [2%positive; 1%positive] two_points
  /\ exists b,
       _everything_embedded (glove true) [2%positive; 1%positive] two_points
       = Returns b two_points
       /\ (b = true <->
           all_carry "glove" [2%positive; 1%positive] two_points).
Proof.
  split; [exact two_points_are_data_points|].
  exact (everything_embedded_iff (glove true) [2%positive; 1%positive]
           two_points two_points_are_data_points).
Defined.

Lemma embed_missing_calls_hook_witness :
  all_carry "glove" [1%positive] two_points
  /\ heap two_points !! 2%positive = Some (mkDataPoint ∅)
  /\ ("glove" ∉ dom (∅ : gmap string nat))
  /\ hook_calls
       (final_state
          (embed (glove true) (Many [1%positive; 2%positive; 9%positive])
             two_points))
     = [[1%positive; 2%positive; 9%positive]].
Proof.
  assert (Hd : heap two_points !! 2%positive = Some (mkDataPoint ∅))
    by reflexivity.
  assert (Hin : "glove" ∉ dom (∅ : gmap string nat)) by set_solver.
  split; [exact glove_carried|]. split; [exact Hd|]. split; [exact Hin|].
  exact (proj2 (embed_missing_calls_hook (glove true) [1%positive]
                  [9%positive] 2%positive (mkDataPoint ∅) two_points
                  glove_carried Hd Hin)).
Defined.

Lemma embed_not_a_data_point_witness :
  all_carry "glove" [1%positive] two_points
  /\ heap two_points !! 9%positive = None
  /\ embed (glove false) (Many [1%positive; 9%positive; 2%positive])
       two_points
     = Raises (AttributeError "_embeddings") two_points.
Proof.
  split; [exact glove_carried|]. split; [reflexivity|].
  exact (embed_not_a_data_point (glove false) [1%positive] [2%positive]
           9%positive two_points glove_carried eq_refl).
Defined.

Lemma embed_dynamic_outcome_witness :
  static_embeddings (glove false) = false
  /\ are_data_points (as_list (One 2%positive)) two_points
  /\ embed (glove false) (One 2%positive) two_points
     = match store_under "glove" 7%nat [2%positive] (heap two_points) with
       | Returns _ h => Returns [2%positive] (mkWorld h [[2%positive]])
       | Raises exc h => Raises exc (mkWorld h [[2%positive]])
       end.
Proof.
  assert (Hdp : are_data_points (as_list (One 2%positive)) two_points)
    by (repeat constructor; by eexists).
  split; [reflexivity|]. split; [exact Hdp|].
  exact (embed_dynamic_outcome (glove false) (One 2%positive) two_points
           eq_refl Hdp).
Defined.

Lemma embed_static_caches_witness :
  static_embeddings (glove true) = true
  /\ are_data_points [2%positive; 1%positive] two_points
  /\ ~ all_carry "glove" [2%positive; 1%positive] two_points
  /\ exists w',
       embed_times 3 (glove true) (Many [2%positive; 1%positive]) two_points
       = Returns tt w'
       /\ hook_calls w' = [[2%positive; 1%positive]].
Proof.
  split; [reflexivity|]. split; [exact two_points_are_data_points|].
  split; [exact glove_missing|].
  destruct (embed_static_caches (glove true) (Many [2%positive; 1%positive])
              two_points 2 eq_refl (store_under_stores "glove" 7%nat)
              two_points_are_data_points glove_missing)
    as (w' & Hrun & Hcalls & _).
  exists w'. split; [exact Hrun|exact Hcalls].
Defined.

Lemma embed_base_hook_never_caches_witness :
  are_data_points [2%positive; 1%positive] two_points
  /\ ~ all_carry "glove" [2%positive; 1%positive] two_points
  /\ embed_times 2
       (mkEmbeddings "glove" true base_add_embeddings_internal)
       (Many [2%positive; 1%positive]) two_points
     = Returns tt
         (mkWorld (heap two_points)
            [[2%positive; 1%positive]; [2%positive; 1%positive]]).
Proof.
  split; [exact two_points_are_data_points|]. split; [exact glove_missing|].
  exact (embed_base_hook_never_caches "glove" true
           (Many [2%positive; 1%positive]) two_points 2
           two_points_are_data_points glove_missing).
Defined.

Lemma names_are_dict_keys_witness :
  "glove" ∈ get_names (glove true)
  /\ get_named_embeddings_dict (glove true) !! "glove" = Some (glove true).
Proof.
  assert (Hin : "glove" ∈ get_names (glove true))
    by (apply list_elem_of_singleton; reflexivity).
  split; [exact Hin|].
  exact (proj2 (proj2 (names_are_dict_keys (glove true))) "glove" Hin).
Defined.

(** ** The constructor of [Embeddings], again *)

Section EmbeddingsInitMore.
Variable module_init : attributes -> attributes.
Variable module_attrs : gset string.
Hypothesis module_init_frame :
  forall (self : attributes) (k : string),
    k ∉ module_attrs -> module_init self !! k = self !! k.
Hypothesis name_not_module_attr : "name" ∉ module_attrs.
Hypothesis static_not_module_attr : "static_embeddings" ∉ module_attrs.

Lemma Embeddings_init_name (self : attributes) :
  Embeddings_init module_init self !! "name"
  = Some (default (PyStr "unnamed_embedding") (self !! "name")).
Proof.
  unfold Embeddings_init, hasattr.
  rewrite module_init_frame by done.
  destruct (self !! "name") as [v|] eqn:Hn.
  - rewrite (bool_decide_eq_true_2 (is_Some (Some v))) by done. cbn [negb].
    case_match; [by rewrite lookup_insert_ne|done].
  - rewrite (bool_decide_eq_false_2 (is_Some None)) by (by intros [? ?]).
    cbn [negb].
    case_match; [by rewrite lookup_insert_ne, lookup_insert_eq|].
    by rewrite lookup_insert_eq.
Qed.

Lemma Embeddings_init_static (self : attributes) :
  Embeddings_init module_init self !! "static_embeddings"
  = Some (default (PyBool false) (self !! "static_embeddings")).
Proof.
  unfold Embeddings_init, hasattr.
  rewrite module_init_frame by done.
  set (a := if negb (bool_decide (is_Some (self !! "name")))
            then <["name" := PyStr "unnamed_embedding"]> self else self).
  assert (Ha : a !! "static_embeddings" = self !! "static_embeddings").
  { unfold a. case_match; [by rewrite lookup_insert_ne|done]. }
  rewrite Ha.
  destruct (self !! "static_embeddings") as [v|] eqn:Hs.
  - rewrite (bool_decide_eq_true_2 (is_Some (Some v))) by done. cbn [negb].
    by rewrite Ha.
  - rewrite (bool_decide_eq_false_2 (is_Some None)) by (by intros [? ?]).
    cbn [negb]. by rewrite lookup_insert_eq.
Qed.

(** X17. After [Embeddings.__init__] both [name] and
    [static_embeddings] are defined, whatever the instance was; and
    running the constructor again changes neither. *)
Theorem Embeddings_init_defines (self : attributes) :
  let self' := Embeddings_init module_init self in
  hasattr self' "name" = true
  /\ hasattr self' "static_embeddings" = true
  /\ Embeddings_init module_init self' !! "name" = self' !! "name"
  /\ Embeddings_init module_init self' !! "static_embeddings"
     = self' !! "static_embeddings".
Proof.
  cbv zeta. unfold hasattr.
  rewrite !Embeddings_init_name, !Embeddings_init_static.
  repeat split; by apply bool_decide_eq_true_2.
Qed.
End EmbeddingsInitMore.

Lemma Embeddings_init_defines_witness :
  hasattr (Embeddings_init set_training ∅) "name" = true
  /\ hasattr (Embeddings_init set_training ∅) "static_embeddings" = true.
Proof.
  pose proof (Embeddings_init_defines set_training {["training"]}
                set_training_frame ltac:(set_solver) ltac:(set_solver) ∅)
    as (Hname & Hstatic & _).
  split; [exact Hname|exact Hstatic].
Defined.

(** ** The constructor-introspection helper, again *)

Lemma dict_get_cons (k : string) (v : pyobj) (d : dict) (key : string) :
  dict_get ((k, v) :: d) key = if decide (k = key) then v else dict_get d key.
Proof.
  unfold dict_get. cbn [list_find]. cbn [fst].
  destruct (decide (k = key)); [done|].
  by destruct (list_find _ d) as [[i [k' v']]|].
Qed.

Lemma dict_get_filter_kept (params : list string) (locals : dict) :
  dict_get (filter (kept params) locals) "__class__"
  = dict_get locals "__class__".
Proof.
  induction locals as [|[k v] locals IH]; [done|].
  rewrite filter_cons, (dict_get_cons k v locals).
  destruct (decide (kept params (k, v))) as [Hk|Hk].
  - by rewrite dict_get_cons, IH.
  - destruct (decide (k = "__class__")) as [->|_]; [|exact IH].
    exfalso. apply Hk. by left.
Qed.

Lemma filter_kept_twice (params : list string) (locals : dict) :
  filter (kept params) (filter (kept params) locals)
  = filter (kept params) locals.
Proof.
  induction locals as [|kv locals IH]; [done|].
  rewrite filter_cons. destruct (decide (kept params kv)) as [Hk|Hk].
  - by rewrite filter_cons, decide_True, IH.
  - exact IH.
Qed.

(** X18. When the constructor of the class under ["__class__"] declares
    no parameter named [self], [get_instance_parameters] raises
    [KeyError('self')]: the name is removed from the set without a
    test. *)
Theorem get_instance_parameters_no_self (locals : dict)
    (class_name : string) (params : list string) :
  dict_get locals "__class__" = PyClass class_name params ->
  "self" ∉ params ->
  get_instance_parameters locals = Err (KeyError "self").
Proof.
  intros Hcls Hself. unfold get_instance_parameters, set_remove.
  rewrite Hcls. cbn [init_signature].
  by rewrite bool_decide_eq_false_2 by (by rewrite elem_of_list_to_set).
Qed.

(** X19. When the mapping has no ["__class__"] entry,
    [get_instance_parameters] does not raise: [get] gives [None], whose
    constructor has the signature [(self, /, *args, **kwargs)], so the
    call returns the entries named ["args"] or ["kwargs"] and nothing
    else: the empty mapping when there are none. *)
Theorem get_instance_parameters_no_class (locals : dict) :
  (forall v, ("__class__", v) ∉ locals) ->
  get_instance_parameters locals
  = Ok (filter (fun kv => kv.1 = "args" \/ kv.1 = "kwargs") locals).
Proof.
  intros Hno.
  assert (Hget : dict_get locals "__class__" = PyNone).
  { induction locals as [|[k v] locals IH]; [done|].
    rewrite dict_get_cons. destruct (decide (k = "__class__")) as [->|_].
    - exfalso. apply (Hno v). by left.
    - apply IH. intros v' Hin. apply (Hno v'). by right. }
  unfold get_instance_parameters, set_remove. rewrite Hget.
  cbn [init_signature].
  rewrite bool_decide_eq_true_2
    by (apply elem_of_list_to_set; by left).
  cbn [mbind result_bind mret result_ret]. f_equal.
  clear Hget.
  induction locals as [|[k v] locals IH]; [done|].
  assert (Hk : k ≠ "__class__").
  { intros ->. apply (Hno v). by left. }
  rewrite !filter_cons, IH by (intros v' Hin; apply (Hno v'); by right).
  cbn [fst].
  assert (Hiff : k ∈ (list_to_set ["self"; "args"; "kwargs"] ∖ {["self"]}
                      ∪ {["__class__"]} : gset string)
                 <-> k = "args" \/ k = "kwargs").
  { rewrite elem_of_union, elem_of_difference, elem_of_list_to_set,
      !elem_of_singleton, !elem_of_cons, elem_of_nil.
    split; [|intros [->| ->]; left; (split; [auto|discriminate])].
    intros [[[?|[?|[?|[]]]] ?]|?]; try done; auto. }
  destruct (decide (k = "args" \/ k = "kwargs")) as [Hd|Hd].
  - by rewrite decide_True by (by apply Hiff).
  - by rewrite decide_False by (by rewrite Hiff).
Qed.

(** X20. Applied to a mapping that it returned,
    [get_instance_parameters] returns that mapping again. *)
Theorem get_instance_parameters_idempotent (locals r : dict)
    (class_name : string) (params : list string) :
  dict_get locals "__class__" = PyClass class_name params ->
  get_instance_parameters locals = Ok r ->
  get_instance_parameters r = Ok r.
Proof.
  intros Hcls Hr.
  destruct (decide ("self" ∈ params)) as [Hself|Hself].
  - rewrite (get_instance_parameters_eq _ _ _ Hcls Hself) in Hr.
    injection Hr as <-.
    rewrite (get_instance_parameters_eq _ class_name params);
      [by rewrite filter_kept_twice| |done].
    by rewrite dict_get_filter_kept.
  - unfold get_instance_parameters, set_remove in Hr.
    rewrite Hcls in Hr. cbn [init_signature] in Hr.
    rewrite bool_decide_eq_false_2 in Hr
      by (by rewrite elem_of_list_to_set).
    done.
Qed.

Lemma get_instance_parameters_no_self_witness :
  dict_get [("this", PyObject 1); ("__class__", PyClass "E" ["this"; "a"])]
    "__class__" = PyClass "E" ["this"; "a"]
  /\ ("self" ∉ ["this"; "a"])
  /\ get_instance_parameters
       [("this", PyObject 1); ("__class__", PyClass "E" ["this"; "a"])]
     = Err (KeyError "self").
Proof.
  assert (Hself : "self" ∉ ["this"; "a"]).
  { intros Hin. repeat (apply elem_of_cons in Hin as [Hin|Hin];
                        [discriminate Hin|]).
    by apply elem_of_nil in Hin. }
  split; [reflexivity|]. split; [exact Hself|].
  exact (get_instance_parameters_no_self
           [("this", PyObject 1); ("__class__", PyClass "E" ["this"; "a"])]
           "E" ["this"; "a"] eq_refl Hself).
Defined.

Lemma get_instance_parameters_no_class_witness :
  (forall v, ("__class__", v) ∉ [("self", PyObject 1); ("a", PyInt 1)])
  /\ get_instance_parameters [("self", PyObject 1); ("a", PyInt 1)]
     = Ok [].
Proof.
  assert (Hno : forall v,
             ("__class__", v) ∉ [("self", PyObject 1); ("a", PyInt 1)]).
  { intros v Hin. repeat (apply elem_of_cons in Hin as [Hin|Hin];
                          [discriminate Hin|]).
    by apply elem_of_nil in Hin. }
  split; [exact Hno|].
  exact (get_instance_parameters_no_class
           [("self", PyObject 1); ("a", PyInt 1)] Hno).
Defined.

Lemma get_instance_parameters_idempotent_witness :
  dict_get plain_locals "__class__" = plain_class
  /\ get_instance_parameters plain_locals
     = Ok [("a", PyInt 1); ("b", PyInt 2); ("__class__", plain_class)]
  /\ get_instance_parameters
       [("a", PyInt 1); ("b", PyInt 2); ("__class__", plain_class)]
     = Ok [("a", PyInt 1); ("b", PyInt 2); ("__class__", plain_class)].
Proof.
  assert (Hrun : get_instance_parameters plain_locals
                 = Ok [("a", PyInt 1); ("b", PyInt 2);
                       ("__class__", plain_class)]).
  { rewrite (get_instance_parameters_eq _ "E" ["self"; "a"; "b"]);
      [|reflexivity|set_solver].
    reflexivity. }
  split; [reflexivity|]. split; [exact Hrun|].
  exact (get_instance_parameters_idempotent plain_locals _ "E"
           ["self"; "a"; "b"] eq_refl Hrun).
Defined.
